(** * Yale Smart Alarm v2: the polling coordinator

    A shallow embedding of
    [custom_components/yale_smart_alarm_v2/coordinator.py]: the fetch step
    [get_updates], the smoke history scan [device_on_in_updates_history]
    and the normalisation loop of [_async_update_data], with the
    properties of the specification stated over them.

    Python dictionaries with string keys are [gmap string pyval]; a Python
    exception is the [Raise] branch of the [result] monad; the in-place
    mutation of the device records is explicit state passing (the loop
    returns the records as it leaves them). *)

From Stdlib Require Import ZArith Ascii String List Lia Bool.
From stdpp Require Import base option list gmap strings pretty.

Local Open Scope string_scope.
Local Open Scope Z_scope.

Set Warnings "-clear-no-such-hyp".

(** ** Exceptions and the error monad *)

(** The exception classes the coordinator can meet.  [ClientError] stands
    for the errors of [yalesmartalarmclient] other than
    [AuthenticationError] (connection, timeout, unknown); [OtherError] for
    any exception class not named here. *)
Inductive exn : Type :=
  | KeyError
  | ValueError
  | TypeError
  | OverflowError
  | AuthenticationError
  | ClientError (cls : string)
  | OtherError (cls : string)
  | ConfigEntryAuthFailed
  | UpdateFailed.

#[global] Instance exn_eq_dec : EqDecision exn.
Proof. solve_decision. Defined.

Inductive result (A : Type) : Type :=
  | Ok (a : A)
  | Raise (e : exn).
Arguments Ok {A} a.
Arguments Raise {A} e.

Definition bind {A B} (m : result A) (f : A → result B) : result B :=
  match m with
  | Ok a => f a
  | Raise e => Raise e
  end.

Notation "'let*' x := m 'in' k" := (bind m (fun x => k))
  (at level 10, x pattern, m at level 100, k at level 200).

(** [try: m except h]: run [m], pass a raised exception to the handler. *)
Definition try_except {A} (m : result A) (h : exn → result A) : result A :=
  match m with
  | Ok a => Ok a
  | Raise e => h e
  end.

(** The two failure kinds the host framework knows. *)
Definition classified (e : exn) : Prop :=
  e = ConfigEntryAuthFailed ∨ e = UpdateFailed.

(** ** The Python run time the coordinator relies on *)

Module Py.

(** *** Characters *)

Definition chars (s : string) : list ascii := list_ascii_of_string s.

(** C's [isspace] in the C locale, used by [int()] and [float()]. *)
Definition is_space (c : ascii) : bool :=
  let n := nat_of_ascii c in
  ((9 <=? n) && (n <=? 13))%nat || (n =? 32)%nat.

(** [\s] of the [re] module on [str] patterns, ASCII range. *)
Definition is_re_space (c : ascii) : bool :=
  let n := nat_of_ascii c in
  is_space c || ((28 <=? n) && (n <=? 31))%nat.

Definition digit_val (c : ascii) : option Z :=
  let n := nat_of_ascii c in
  if ((48 <=? n) && (n <=? 57))%nat then Some (Z.of_nat n - 48) else None.

Definition hex_val (c : ascii) : option Z :=
  let n := nat_of_ascii c in
  if ((48 <=? n) && (n <=? 57))%nat then Some (Z.of_nat n - 48)
  else if ((97 <=? n) && (n <=? 102))%nat then Some (Z.of_nat n - 87)
  else if ((65 <=? n) && (n <=? 70))%nat then Some (Z.of_nat n - 55)
  else None.

Definition lower (c : ascii) : ascii :=
  let n := nat_of_ascii c in
  if ((65 <=? n) && (n <=? 90))%nat then ascii_of_nat (n + 32) else c.

Fixpoint lstrip (s : list ascii) : list ascii :=
  match s with
  | c :: s' => if is_space c then lstrip s' else s
  | [] => []
  end.

Definition strip (s : list ascii) : list ascii :=
  rev (lstrip (rev (lstrip s))).

(** [needle in hay] on strings: [needle] occurs as a substring. *)
Fixpoint str_contains (needle hay : string) : bool :=
  String.prefix needle hay ||
  match hay with
  | EmptyString => false
  | String _ hay' => str_contains needle hay'
  end.

(** *** Floats

    A float is kept as the decimal number its literal denotes,
    [(-1)^neg * m * 10^e], normalised so that [m] has no trailing zero
    (zero is [m = 0, e = 0]).  Rounding to binary64 is outside the model:
    no property below depends on the numeric value of a temperature. *)
Inductive pyfloat : Type :=
  | FNan
  | FInf (neg : bool)
  | FDec (neg : bool) (m : N) (e : Z).

#[global] Instance pyfloat_eq_dec : EqDecision pyfloat.
Proof. solve_decision. Defined.

(** Strip the trailing zeros of the mantissa ([fuel] bounds the loop). *)
Fixpoint norm_go (fuel : nat) (m : N) (e : Z) : N * Z :=
  match fuel with
  | O => (m, e)
  | S fuel' =>
      if (m =? 0)%N then (0%N, 0)
      else if (m mod 10 =? 0)%N then norm_go fuel' (m / 10)%N (e + 1)
      else (m, e)
  end.

Definition fdec (neg : bool) (m : N) (e : Z) : pyfloat :=
  let '(m', e') := norm_go (S (N.to_nat (N.log2 m))) m e in
  FDec neg m' e'.

Definition float_of_Z (z : Z) : pyfloat := fdec (z <? 0) (Z.abs_N z) 0.

(** The integer a float equals, when there is one. *)
Definition float_integral (f : pyfloat) : option Z :=
  match f with
  | FDec neg m e =>
      if 0 <=? e
      then Some ((if neg then -1 else 1) * (Z.of_N m * 10 ^ e))
      else None
  | _ => None
  end.

Definition float_is_zero (f : pyfloat) : bool :=
  match f with
  | FDec _ m _ => (m =? 0)%N
  | _ => false
  end.

(** [repr] of a float: positional notation while the decimal point falls
    within 16 digits, exponent notation otherwise.  It is Python's [repr]
    on every decimal of at most 15 significant digits. *)
Definition zeros (n : Z) : string := String.concat "" (replicate (Z.to_nat n) "0").

Definition exp_str (x : Z) : string :=
  (if x <? 0 then "-" else "+") ++
  (if Z.abs x <? 10 then "0" else "") ++ pretty (Z.abs x).

Definition float_repr (f : pyfloat) : string :=
  match f with
  | FNan => "nan"
  | FInf neg => if neg then "-inf" else "inf"
  | FDec neg m e =>
      (if neg then "-" else "") ++
      (if (m =? 0)%N then "0.0" else
       let ds := pretty m in
       let n := Z.of_nat (String.length ds) in
       let decpt := n + e in
       if (-4 <? decpt) && (decpt <=? 16) then
         if decpt <=? 0 then "0." ++ zeros (- decpt) ++ ds
         else if n <=? decpt then ds ++ zeros (decpt - n) ++ ".0"
         else substring 0 (Z.to_nat decpt) ds ++ "." ++
              substring (Z.to_nat decpt) (Z.to_nat (n - decpt)) ds
       else
         substring 0 1 ds ++
         (if 1 <? n then "." ++ substring 1 (Z.to_nat (n - 1)) ds else "") ++
         "e" ++ exp_str (decpt - 1))
  end.

(** *** [int(s, 16)]

    CPython's [PyLong_FromString] for base 16: white space around, a
    sign, an optional [0x] prefix, then hexadecimal digits with single
    underscores between them. *)
Fixpoint scan_hex (s : list ascii) (prev_us : bool) (n : nat) (acc : Z)
  : option (Z * nat * list ascii) :=
  match s with
  | c :: s' =>
      if Ascii.eqb c "_" then
        if prev_us then None else scan_hex s' true n acc
      else
        match hex_val c with
        | Some d => scan_hex s' false (S n) (16 * acc + d)
        | None => if prev_us then None else Some (acc, n, s)
        end
  | [] => if prev_us then None else Some (acc, n, [])
  end.

Definition skip_sign (s : list ascii) : bool * list ascii :=
  match s with
  | "+"%char :: s' => (false, s')
  | "-"%char :: s' => (true, s')
  | _ => (false, s)
  end.

Definition skip_0x (s : list ascii) : list ascii :=
  match s with
  | "0"%char :: x :: s' =>
      if Ascii.eqb (lower x) "x" then
        match s' with
        | "_"%char :: s'' => s''
        | _ => s'
        end
      else s
  | _ => s
  end.

Definition int16_of_chars (s : list ascii) : option Z :=
  let '(neg, s1) := skip_sign (lstrip s) in
  let s2 := skip_0x s1 in
  match s2 with
  | "_"%char :: _ => None
  | _ =>
      match scan_hex s2 false 0 0 with
      | Some (v, n, rest) =>
          if (n =? 0)%nat then None
          else match lstrip rest with
               | [] => Some (if neg then - v else v)
               | _ => None
               end
      | None => None
      end
  end.

(** *** [float(s)]

    [PyFloat_FromString]: white space stripped, underscores only between
    digits, then [inf], [infinity], [nan] (any case) or a decimal literal
    with an optional exponent; the whole string must be consumed. *)
Definition is_digit (c : ascii) : bool := bool_decide (is_Some (digit_val c)).

Fixpoint drop_underscores (s : list ascii) (prev : option ascii)
  : option (list ascii) :=
  match s with
  | c :: s' =>
      if Ascii.eqb c "_" then
        match prev with
        | Some p => if is_digit p then drop_underscores s' (Some c) else None
        | None => None
        end
      else
        let bad :=
          match prev with
          | Some p => Ascii.eqb p "_" && negb (is_digit c)
          | None => false
          end in
        if bad then None else (c ::.) <$> drop_underscores s' (Some c)
  | [] =>
      match prev with
      | Some p => if Ascii.eqb p "_" then None else Some []
      | None => Some []
      end
  end.

(** The maximal run of decimal digits at the head of [s]: its value, its
    length and what follows. *)
Fixpoint take_digits (s : list ascii) (n : nat) (acc : Z) : Z * nat * list ascii :=
  match s with
  | c :: s' =>
      match digit_val c with
      | Some d => take_digits s' (S n) (10 * acc + d)
      | None => (acc, n, s)
      end
  | [] => (acc, n, [])
  end.

Definition parse_exponent (s : list ascii) : option Z :=
  match s with
  | [] => Some 0
  | c :: s' =>
      if Ascii.eqb (lower c) "e" then
        let '(neg, s1) := skip_sign s' in
        let '(v, n, rest) := take_digits s1 0 0 in
        match rest with
        | [] => if (n =? 0)%nat then None else Some (if neg then - v else v)
        | _ => None
        end
      else None
  end.

Definition parse_decimal (neg : bool) (s : list ascii) : option pyfloat :=
  let '(ip, ni, s1) := take_digits s 0 0 in
  let '(m, nf, s2) :=
    match s1 with
    | "."%char :: s1' => take_digits s1' 0 ip
    | _ => (ip, O, s1)
    end in
  if (ni + nf =? 0)%nat then None
  else x ← parse_exponent s2; Some (fdec neg (Z.to_N m) (x - Z.of_nat nf)).

Definition float_of_chars (s : list ascii) : option pyfloat :=
  match strip s with
  | [] => None
  | s0 =>
      s1 ← (if bool_decide ("_"%char ∈ s0) then drop_underscores s0 None else Some s0);
      let '(neg, s2) := skip_sign s1 in
      let w := string_of_list_ascii (map lower s2) in
      if bool_decide (w = "inf" ∨ w = "infinity") then Some (FInf neg)
      else if bool_decide (w = "nan") then Some FNan
      else parse_decimal neg s2
  end.

(** *** [datetime]

    A naive [datetime] at the resolution of a second is the number of
    seconds since 0001-01-01 00:00:00 (proleptic Gregorian calendar), from
    0 up to [MAX_SECONDS] (9999-12-31 23:59:59).  Comparison of datetimes
    is comparison of these numbers. *)
Definition datetime : Type := Z.

Definition is_leap (y : Z) : bool :=
  (y mod 4 =? 0) && (negb (y mod 100 =? 0) || (y mod 400 =? 0)).

Definition days_before_year (y : Z) : Z :=
  let y1 := y - 1 in y1 * 365 + y1 / 4 - y1 / 100 + y1 / 400.

Definition month_lengths (y : Z) : list Z :=
  [31; if is_leap y then 29 else 28; 31; 30; 31; 30; 31; 31; 30; 31; 30; 31].

Definition days_in_month (y m : Z) : Z :=
  default 0 (month_lengths y !! Z.to_nat (m - 1)).

Definition days_before_month (y m : Z) : Z :=
  foldr Z.add 0 (take (Z.to_nat (m - 1)) (month_lengths y)).

Definition MAX_SECONDS : Z := 3652059 * 86400 - 1.

(** The constructor [datetime(y, mo, d, h, mi, s)]: [None] stands for the
    [ValueError] of an out-of-range field. *)
Definition mk_datetime (y mo d h mi s : Z) : option datetime :=
  if (1 <=? y) && (y <=? 9999) && (1 <=? mo) && (mo <=? 12) &&
     (1 <=? d) && (d <=? days_in_month y mo) &&
     (0 <=? h) && (h <=? 23) && (0 <=? mi) && (mi <=? 59) &&
     (0 <=? s) && (s <=? 59)
  then Some ((days_before_year y + days_before_month y mo + (d - 1)) * 86400
             + h * 3600 + mi * 60 + s)
  else None.

(** [dt - timedelta(minutes=m)]: [OverflowError] outside the range of
    [datetime]. *)
Definition sub_minutes (dt : datetime) (m : Z) : result datetime :=
  let r := dt - 60 * m in
  if (0 <=? r) && (r <=? MAX_SECONDS) then Ok r else Raise OverflowError.

(** [datetime.strptime(s, "%Y<sep>%m<sep>%d %H:%M:%S")].  [_strptime]
    turns the format into the regular expression

      (\d\d\d\d)<sep>(1[0-2]|0[1-9]|[1-9])<sep>
      (3[0-1]|[1-2]\d|0[1-9]|[1-9]| [1-9])\s+
      (2[0-3]|[0-1]\d|\d):([0-5]\d|\d):(6[0-1]|[0-5]\d|\d)

    and wants the whole string matched.  Every field is followed by a
    character that is no digit (or by the end), so a field is the maximal
    run of digits where it starts and the run has to be one of the
    alternatives. *)
Definition expect (c : ascii) (s : list ascii) : option (list ascii) :=
  match s with
  | c' :: s' => if Ascii.eqb c c' then Some s' else None
  | [] => None
  end.

(** A field of one or two digits with value in [lo1..9] when it has one
    digit and in [lo2..hi] when it has two. *)
Definition field2 (lo1 lo2 hi : Z) (s : list ascii) : option (Z * list ascii) :=
  let '(v, n, rest) := take_digits s 0 0 in
  if ((n =? 1)%nat && (lo1 <=? v)) || ((n =? 2)%nat && (lo2 <=? v) && (v <=? hi))
  then Some (v, rest) else None.

Definition field_year (s : list ascii) : option (Z * list ascii) :=
  let '(v, n, rest) := take_digits s 0 0 in
  if (n =? 4)%nat then Some (v, rest) else None.

Definition field_day (s : list ascii) : option (Z * list ascii) :=
  match s with
  | " "%char :: s' =>
      let '(v, n, rest) := take_digits s' 0 0 in
      if (n =? 1)%nat && (1 <=? v) then Some (v, rest) else None
  | _ => field2 1 1 31 s
  end.

Fixpoint skip_re_space (s : list ascii) : list ascii :=
  match s with
  | c :: s' => if is_re_space c then skip_re_space s' else s
  | [] => []
  end.

Definition spaces1 (s : list ascii) : option (list ascii) :=
  match s with
  | c :: s' => if is_re_space c then Some (skip_re_space s') else None
  | [] => None
  end.

Definition strptime_chars (sep : ascii) (s : list ascii) : option datetime :=
  '(y, s) ← field_year s;
  s ← expect sep s;
  '(mo, s) ← field2 1 1 12 s;
  s ← expect sep s;
  '(d, s) ← field_day s;
  s ← spaces1 s;
  '(h, s) ← field2 0 0 23 s;
  s ← expect ":" s;
  '(mi, s) ← field2 0 0 59 s;
  s ← expect ":" s;
  '(sec, s) ← field2 0 0 61 s;
  match s with
  | [] => mk_datetime y mo d h mi sec
  | _ => None
  end.

(** *** Values

    The scalars of a decoded JSON document, which is what the fields of
    a device record and of a history entry hold. *)
Inductive pyval : Type :=
  | VNone
  | VBool (b : bool)
  | VInt (z : Z)
  | VFloat (f : pyfloat)
  | VStr (s : string).

#[global] Instance pyval_eq_dec : EqDecision pyval.
Proof. solve_decision. Defined.

#[global] Instance pyfloat_countable : Countable pyfloat.
Proof.
  refine (inj_countable'
    (λ f, match f with
          | FNan => inl ()
          | FInf b => inr (inl b)
          | FDec b m e => inr (inr (b, m, e))
          end)
    (λ x, match x with
          | inl _ => FNan
          | inr (inl b) => FInf b
          | inr (inr (b, m, e)) => FDec b m e
          end) _).
  by intros [].
Defined.

#[global] Instance pyval_countable : Countable pyval.
Proof.
  refine (inj_countable'
    (λ v, match v with
          | VNone => inl ()
          | VBool b => inr (inl b)
          | VInt z => inr (inr (inl z))
          | VFloat f => inr (inr (inr (inl f)))
          | VStr s => inr (inr (inr (inr s)))
          end)
    (λ x, match x with
          | inl _ => VNone
          | inr (inl b) => VBool b
          | inr (inr (inl z)) => VInt z
          | inr (inr (inr (inl f))) => VFloat f
          | inr (inr (inr (inr s))) => VStr s
          end) _).
  by intros [].
Defined.

(** [str(v)] *)
Definition str (v : pyval) : string :=
  match v with
  | VNone => "None"
  | VBool b => if b then "True" else "False"
  | VInt z => pretty z
  | VFloat f => float_repr f
  | VStr s => s
  end.

(** The truth value of [v], as [or], [and], [not] and [if] take it. *)
Definition truthy (v : pyval) : bool :=
  match v with
  | VNone => false
  | VBool b => b
  | VInt z => negb (z =? 0)
  | VFloat f => negb (float_is_zero f)
  | VStr s => negb (String.eqb s "")
  end.

(** [a or b] *)
Definition or_else (a b : pyval) : pyval := if truthy a then a else b.

(** [int(s, 16)] on a string. *)
Definition int16 (s : string) : result Z :=
  match int16_of_chars (chars s) with
  | Some z => Ok z
  | None => Raise ValueError
  end.

(** [float(v)]: an integer that rounds to 2^1024 or more is refused. *)
Definition float (v : pyval) : result pyfloat :=
  match v with
  | VNone => Raise TypeError
  | VBool b => Ok (float_of_Z (Z.b2z b))
  | VInt z =>
      if Z.abs z <? 2 ^ 1024 - 2 ^ 970 then Ok (float_of_Z z)
      else Raise OverflowError
  | VFloat f => Ok f
  | VStr s =>
      match float_of_chars (chars s) with
      | Some f => Ok f
      | None => Raise ValueError
      end
  end.

(** [datetime.strptime(v, fmt)] for the two formats of the coordinator. *)
Definition strptime (sep : ascii) (v : pyval) : result datetime :=
  match v with
  | VStr s =>
      match strptime_chars sep (chars s) with
      | Some t => Ok t
      | None => Raise ValueError
      end
  | _ => Raise TypeError
  end.

(** [needle in v] for a string literal [needle]: the scalars other than
    strings are not iterable. *)
Definition contains (needle : string) (v : pyval) : result bool :=
  match v with
  | VStr s => Ok (str_contains needle s)
  | _ => Raise TypeError
  end.

(** Equal numbers are one and the same dictionary key whatever their
    type ([True], [1] and [1.0]); [key] picks the integer as the
    representative. *)
Definition key (v : pyval) : pyval :=
  match v with
  | VBool b => VInt (Z.b2z b)
  | VFloat f =>
      match float_integral f with
      | Some z => VInt z
      | None => v
      end
  | _ => v
  end.

(** [a == b]: equality of numbers across [bool], [int] and [float]
    (a NaN equals nothing), structural otherwise. *)
Definition equal (a b : pyval) : bool :=
  match a, b with
  | VFloat FNan, _ | _, VFloat FNan => false
  | _, _ => bool_decide (key a = key b)
  end.

(** [d[k]] *)
Definition getitem (d : gmap string pyval) (k : string) : result pyval :=
  match d !! k with
  | Some v => Ok v
  | None => Raise KeyError
  end.

End Py.

Import Py (pyval, VNone, VBool, VInt, VFloat, VStr, pyfloat, datetime).

Abbreviation dict := (gmap string pyval).

(** A decoded JSON document that the coordinator hands on without
    looking inside (arm status, panel status, online flag, panel info). *)
#[local] Unset Elimination Schemes.
Inductive json : Type :=
  | JScalar (v : pyval)
  | JList (l : list json)
  | JDict (l : list (string * json)).
#[local] Set Elimination Schemes.

(** ** Data model *)

(** [data["CYCLE"]]: the coordinator reads its ["device_status"] entry
    only; [None] is a missing key. *)
Record cycle_t : Type := Cycle { device_status : option (list dict) }.

(** The dictionary [YaleSmartAlarmClient.get_all] answers with; a key
    that is missing is [None]. *)
Record all_data : Type := AllData {
  CYCLE : option cycle_t;
  HISTORY : option (list dict);
  STATUS : option json;
  ONLINE : option json;
  PANEL_INFO : option json;
  AUTH_CHECK : option dict;
}.

(** A client object, by what its two methods answer when called. *)
Record YaleSmartAlarmClient : Type := Client {
  get_armed_status : result json;
  get_all : result all_data;
}.

(** The coordinator object: [self.entry.data] and [self.yale]. *)
Record coordinator : Type := Coordinator {
  entry_data : dict;
  yale : option YaleSmartAlarmClient;
}.

(** The raw bundle, the dictionary [get_updates] returns. *)
Record updates_t : Type := Updates {
  arm_status : json;
  cycle : cycle_t;
  status : json;
  online : json;
  panel_info : json;
  history : list dict;
  update_timestamp : datetime;
}.

(** The four lists the loop of [_async_update_data] fills. *)
Record lists : Type := Lists {
  locks : list dict;
  door_windows : list dict;
  sensors_temperature : list dict;
  sensors_smoke : list dict;
}.

(** The snapshot, the dictionary [_async_update_data] returns.  The four
    maps are keyed by address, through [Py.key]. *)
Record snapshot : Type := Snapshot {
  s_alarm : json;
  s_locks : list dict;
  s_door_windows : list dict;
  s_temperature_sensors : list dict;
  s_smoke_sensors : list dict;
  s_status : json;
  s_online : json;
  s_door_sensor_map : gmap pyval pyval;
  s_lock_map : gmap pyval pyval;
  s_temperature_map : gmap pyval pyval;
  s_smoke_map : gmap pyval pyval;
  s_panel_info : json;
}.

(** [homeassistant.const] *)
Definition CONF_USERNAME : string := "username".
Definition CONF_PASSWORD : string := "password".

(** Short-circuit [and] and [or] over operands that may raise. *)
Definition and_then (b : bool) (m : result bool) : result bool :=
  if b then m else Ok false.
Definition or_else (m1 m2 : result bool) : result bool :=
  let* b := m1 in if b then Ok true else m2.

Section Coordinator.

(** [const.py] is not part of the sources at hand: the two smoke event
    codes and the tuple [YALE_BASE_ERRORS] (read as the test
    [isinstance(e, YALE_BASE_ERRORS)]) are parameters. *)
Variable YALE_EVENT_TYPE_SMOKE_ON : pyval.
Variable YALE_EVENT_TYPE_SMOKE_OFF : pyval.
Variable YALE_BASE_ERRORS : exn → bool.

(** ** [device_on_in_updates_history] *)

(** The [for hist_item in updates["history"]] loop, lines 47-60; the
    result is the value of [exists] when the loop is left. *)
Fixpoint history_loop (device : dict) (accepted_timestamp : datetime)
    (enabled_type disabled_type : pyval) (hist : list dict) : result bool :=
  match hist with
  | [] => Ok false
  | hist_item :: rest =>
      let* hist_time := Py.getitem hist_item "time" in
      let* hist_date := Py.strptime "/" hist_time in
      if hist_date <? accepted_timestamp then Ok false
      else
        let* h_type := Py.getitem hist_item "type" in
        let* d_type := Py.getitem device "type" in
        if negb (Py.equal h_type d_type) then
          history_loop device accepted_timestamp enabled_type disabled_type rest
        else
          let* h_area := Py.getitem hist_item "area" in
          let* d_area := Py.getitem device "area" in
          if bool_decide (Py.str h_area ≠ Py.str d_area) then
            history_loop device accepted_timestamp enabled_type disabled_type rest
          else
            let* ev := Py.getitem hist_item "event_type" in
            if Py.equal (VStr (Py.str ev)) disabled_type then Ok false
            else if Py.equal (VStr (Py.str ev)) enabled_type then Ok true
            else
              history_loop device accepted_timestamp enabled_type disabled_type rest
  end.

Definition device_on_in_updates_history (device : dict) (updates : updates_t)
    (enabled_type disabled_type : pyval) (minutes : Z) : result bool :=
  let update_timestamp := update_timestamp updates in
  let* accepted_timestamp := Py.sub_minutes update_timestamp minutes in
  history_loop device accepted_timestamp enabled_type disabled_type
    (history updates).

(** ** [_async_update_data] *)

(** [device["type"] == tag] *)
Definition type_is (device : dict) (tag : string) : result bool :=
  let* ty := Py.getitem device "type" in Ok (Py.equal ty (VStr tag)).

Definition set_state (v : pyval) (device : dict) : dict :=
  <["_state" := v]> device.
Definition set_state2 (v : pyval) (device : dict) : dict :=
  <["_state2" := v]> device.

Definition add_lock (device : dict) (acc : lists) : lists :=
  Lists (locks acc ++ [device]) (door_windows acc)
        (sensors_temperature acc) (sensors_smoke acc).
Definition add_door_window (device : dict) (acc : lists) : lists :=
  Lists (locks acc) (door_windows acc ++ [device])
        (sensors_temperature acc) (sensors_smoke acc).
Definition add_temperature (device : dict) (acc : lists) : lists :=
  Lists (locks acc) (door_windows acc)
        (sensors_temperature acc ++ [device]) (sensors_smoke acc).
Definition add_smoke (device : dict) (acc : lists) : lists :=
  Lists (locks acc) (door_windows acc)
        (sensors_temperature acc) (sensors_smoke acc ++ [device]).

(** Lines 76-127: the branch of a lock. *)
Definition lock_branch (state : pyval) (device : dict) (acc : lists)
  : result (dict * lists) :=
  let* lock_status_str := Py.getitem device "minigw_lock_status" in
  let* lock_status := Py.int16 (Py.str (Py.or_else lock_status_str (VInt 0))) in
  let closed := Z.land lock_status 16 =? 16 in
  let locked := Z.land lock_status 1 =? 1 in
  let marked :=
    or_else (Py.contains "device_status.lock" state)
            (Py.contains "device_status.unlock" state) in
  let stored s s2 :=
    let device := set_state2 (VStr s2) (set_state (VStr s) device) in
    Ok (device, add_lock device acc) in
  let* c1 := and_then (lock_status =? 0)
         (Py.contains "device_status.lock" state) in
  if c1 then stored "locked" "unknown" else
  let* c2 := and_then (lock_status =? 0)
         (Py.contains "device_status.unlock" state) in
  if c2 then stored "unlocked" "unknown" else
  let* c3 := and_then (negb (lock_status =? 0))
         (let* m := marked in Ok (m && closed && locked)) in
  if c3 then stored "locked" "closed" else
  let* c4 := and_then (negb (lock_status =? 0))
         (let* m := marked in Ok (m && closed && negb locked)) in
  if c4 then stored "unlocked" "closed" else
  let* c5 := and_then (negb (lock_status =? 0))
         (let* m := marked in Ok (m && negb closed)) in
  if c5 then stored "unlocked" "open" else
  let device := set_state (VStr "unavailable") device in
  Ok (device, add_lock device acc).

(** Lines 129-139: the branch of a door or window contact. *)
Definition contact_branch (state : pyval) (device : dict) (acc : lists)
  : result (dict * lists) :=
  let stored s :=
    let device := set_state (VStr s) device in
    Ok (device, add_door_window device acc) in
  let* c1 := Py.contains "device_status.dc_close" state in
  if c1 then stored "closed" else
  let* c2 := Py.contains "device_status.dc_open" state in
  if c2 then stored "open" else
  stored "unavailable".

(** Lines 141-144: the branch of a temperature sensor. *)
Definition temperature_branch (device : dict) (acc : lists)
  : result (dict * lists) :=
  let* state := Py.getitem device "status_temp" in
  let* t := Py.float state in
  let device := set_state (VFloat t) device in
  Ok (device, add_temperature device acc).

(** Lines 146-158: the branch of a smoke detector. *)
Definition smoke_branch (updates : updates_t) (device : dict) (acc : lists)
  : result (dict * lists) :=
  let* on := device_on_in_updates_history device updates
         YALE_EVENT_TYPE_SMOKE_ON YALE_EVENT_TYPE_SMOKE_OFF 3 in
  let state := if on then "on" else "off" in
  let device := set_state (VStr state) device in
  Ok (device, add_smoke device acc).

(** The body of [for device in updates["cycle"]["device_status"]], lines
    74-158: the record as the body leaves it and the four lists. *)
Definition loop_body (updates : updates_t) (device : dict) (acc : lists)
  : result (dict * lists) :=
  let* state := Py.getitem device "status1" in
  let* is_lock := type_is device "device_type.door_lock" in
  if is_lock then lock_branch state device acc else
  let* is_contact := type_is device "device_type.door_contact" in
  if is_contact then contact_branch state device acc else
  let* is_temperature := type_is device "device_type.temperature_sensor" in
  if is_temperature then temperature_branch device acc else
  let* is_smoke := type_is device "device_type.smoke_detector" in
  if is_smoke then smoke_branch updates device acc else
  Ok (device, acc).

Fixpoint device_loop (updates : updates_t) (devices : list dict) (acc : lists)
  : result (list dict * lists) :=
  match devices with
  | [] => Ok ([], acc)
  | device :: rest =>
      let* (device', acc') := loop_body updates device acc in
      let* (rest', acc'') := device_loop updates rest acc' in
      Ok (device' :: rest', acc'')
  end.

(** [{d["address"]: d["_state"] for d in l}], built left to right into
    [m]: a later record with the same address replaces the entry. *)
Fixpoint address_map (l : list dict) (m : gmap pyval pyval)
  : result (gmap pyval pyval) :=
  match l with
  | [] => Ok m
  | d :: l' =>
      let* a := Py.getitem d "address" in
      let* v := Py.getitem d "_state" in
      address_map l' (<[Py.key a := v]> m)
  end.

(** Lines 68-180, all of [_async_update_data] after the fetch: the bundle
    as the loop leaves it (its device records are mutated in place) and
    the snapshot.  The lists of the snapshot hold the very records of the
    bundle; a record is written once, right before it is appended, so the
    value appended is the value the record keeps. *)
Definition normalize (updates : updates_t) : result (updates_t * snapshot) :=
  let* devices := from_option Ok (Raise KeyError) (device_status (cycle updates)) in
  let* (devices', acc) := device_loop updates devices (Lists [] [] [] []) in
  let* _door_sensor_map := address_map (door_windows acc) ∅ in
  let* _lock_map := address_map (locks acc) ∅ in
  let* _temperature_map := address_map (sensors_temperature acc) ∅ in
  let* _smoke_map := address_map (sensors_smoke acc) ∅ in
  Ok (Updates (arm_status updates) (Cycle (Some devices')) (status updates)
        (online updates) (panel_info updates) (history updates)
        (update_timestamp updates),
      Snapshot (arm_status updates) (locks acc) (door_windows acc)
        (sensors_temperature acc) (sensors_smoke acc) (status updates)
        (online updates) _door_sensor_map _lock_map _temperature_map
        _smoke_map (panel_info updates)).

(** ** [get_updates] *)

(** The constructor [YaleSmartAlarmClient(username, password)], which
    logs in and may raise. *)
Variable connect : pyval → pyval → result YaleSmartAlarmClient.

Definition lookup_key {A} (o : option A) : result A :=
  from_option Ok (Raise KeyError) o.

(** The two [except] clauses both [try] statements end with:
    [except AuthenticationError: raise ConfigEntryAuthFailed] first, then
    [except YALE_BASE_ERRORS: raise UpdateFailed]; an exception neither
    clause matches propagates. *)
Definition reclassify {A} (e : exn) : result A :=
  if decide (e = AuthenticationError) then Raise ConfigEntryAuthFailed
  else if YALE_BASE_ERRORS e then Raise UpdateFailed
  else Raise e.

(** Lines 187-189, the body of the first [try]. *)
Definition open_session (self : coordinator) : result YaleSmartAlarmClient :=
  let* username := Py.getitem (entry_data self) CONF_USERNAME in
  let* password := Py.getitem (entry_data self) CONF_PASSWORD in
  connect username password.

(** Lines 185-193: the session is opened on the first call and kept. *)
Definition ensure_client (self : coordinator)
  : result YaleSmartAlarmClient * coordinator :=
  match yale self with
  | None =>
      match try_except (open_session self) reclassify with
      | Ok client => (Ok client, Coordinator (entry_data self) (Some client))
      | Raise e => (Raise e, self)
      end
  | Some client => (Ok client, self)
  end.

(** Lines 196-204, the body of the second [try], and the dictionary of
    lines 211-219 it leads to. *)
Definition fetch_data (client : YaleSmartAlarmClient) : result updates_t :=
  let* arm_status := get_armed_status client in
  let* data := get_all client in
  let* cycle := lookup_key (CYCLE data) in
  let* history := lookup_key (HISTORY data) in
  let* status := lookup_key (STATUS data) in
  let* online := lookup_key (ONLINE data) in
  let* panel_info := lookup_key (PANEL_INFO data) in
  let* auth_check := lookup_key (AUTH_CHECK data) in
  let* token_time := Py.getitem auth_check "token_time" in
  let* update_timestamp := Py.strptime "-" token_time in
  Ok (Updates arm_status cycle status online panel_info history
        update_timestamp).

(** Lines 195-219. *)
Definition fetch (client : YaleSmartAlarmClient) : result updates_t :=
  try_except (fetch_data client) reclassify.

Definition get_updates (self : coordinator) : result updates_t * coordinator :=
  let '(r, self) := ensure_client self in
  (let* client := r in fetch client, self).

(** What the two [try] bodies compute, before any [except] clause. *)
Definition raw_fetch (self : coordinator) : result updates_t :=
  match yale self with
  | None => let* client := open_session self in fetch_data client
  | Some client => fetch_data client
  end.

(** [_async_update_data]: one refresh cycle, the fetch and then the
    normalisation. *)
Definition _async_update_data (self : coordinator)
  : result snapshot * coordinator :=
  let '(r, self) := get_updates self in
  (let* updates := r in
   let* (_, data) := normalize updates in
   Ok data, self).

End Coordinator.

(** ** The decision table of a lock, as the specification words it *)

(** An ordered sequence of (predicate, outcome) pairs; the outcome is the
    state and, when the rule sets one, the secondary state. *)
Definition spec_lock_rules (bitmask : Z) (flags : string)
  : list (bool * (string * option string)) :=
  let closed := negb (Z.land bitmask 16 =? 0) in
  let locked := negb (Z.land bitmask 1 =? 0) in
  let lock := Py.str_contains "device_status.lock" flags in
  let unlock := Py.str_contains "device_status.unlock" flags in
  let nonzero := negb (bitmask =? 0) in
  [ ((bitmask =? 0) && lock, ("locked", Some "unknown"));
    ((bitmask =? 0) && unlock, ("unlocked", Some "unknown"));
    (nonzero && (lock || unlock) && closed && locked, ("locked", Some "closed"));
    (nonzero && (lock || unlock) && closed && negb locked,
       ("unlocked", Some "closed"));
    (nonzero && (lock || unlock) && negb closed, ("unlocked", Some "open")) ].

(** First match wins; no match is rule 6, [unavailable] with no
    secondary state. *)
Fixpoint first_match {A} (rules : list (bool * A)) (otherwise : A) : A :=
  match rules with
  | [] => otherwise
  | (p, out) :: rules' => if p then out else first_match rules' otherwise
  end.

Definition spec_lock_table (bitmask : Z) (flags : string)
  : string * option string :=
  first_match (spec_lock_rules bitmask flags) ("unavailable", None).

(** Writing an outcome on a record: [_state] always, [_state2] when the
    outcome has one (the key is left as it is otherwise). *)
Definition write_outcome (out : string * option string) (device : dict) : dict :=
  let device := set_state (VStr out.1) device in
  match out.2 with
  | Some s2 => set_state2 (VStr s2) device
  | None => device
  end.

(** The number a string of hexadecimal digits denotes. *)
Definition hex_number (s : string) : Z :=
  foldl (λ acc c, 16 * acc + default 0 (Py.hex_val c)) 0 (Py.chars s).

Definition all_hex (s : string) : Prop :=
  Forall (λ c, is_Some (Py.hex_val c)) (Py.chars s).

(** ** The history scan, as the specification words it *)

(** The parsed timestamp of a history entry. *)
Definition entry_time (h : dict) : option datetime :=
  match h !! "time" with
  | Some v =>
      match Py.strptime "/" v with
      | Ok t => Some t
      | Raise _ => None
      end
  | None => None
  end.

(** A history event has a time stamp that parses, a type, an area and an
    event type. *)
Definition well_formed_entry (h : dict) : Prop :=
  is_Some (entry_time h) ∧ is_Some (h !! "type") ∧
  is_Some (h !! "area") ∧ is_Some (h !! "event_type").

(** Newest first: no entry is newer than an entry before it. *)
Fixpoint newest_first (hist : list dict) : Prop :=
  match hist with
  | [] => True
  | h :: rest =>
      Forall (λ h', ∀ t t', entry_time h = Some t → entry_time h' = Some t' →
                            t' ≤ t) rest
      ∧ newest_first rest
  end.

(** Within the window: the time stamp is not older than [T - W], here
    [accepted]. *)
Definition in_window (accepted : datetime) (h : dict) : bool :=
  match entry_time h with
  | Some t => accepted <=? t
  | None => false
  end.

Definition field_str (d : dict) (k : string) : option string :=
  Py.str <$> d !! k.

(** The entry is about the device: same type and same area, compared as
    strings. *)
Definition same_device (device h : dict) : bool :=
  bool_decide (field_str h "type" = field_str device "type" ∧
               field_str h "area" = field_str device "area").

(** The event type of the entry, as a string, is the event code. *)
Definition has_code (code : pyval) (h : dict) : bool :=
  match h !! "event_type" with
  | Some ev => Py.equal (VStr (Py.str ev)) code
  | None => false
  end.

(** A decisive entry: within the window, about the device, and an on or
    an off event. *)
Definition decisive (device : dict) (accepted : datetime) (on off : pyval)
    (h : dict) : bool :=
  in_window accepted h && same_device device h &&
  (has_code on h || has_code off h).

(** An entry at which the scan stops: older than the window, or decisive. *)
Definition stops (device : dict) (accepted : datetime) (on off : pyval)
    (h : dict) : bool :=
  negb (in_window accepted h) || decisive device accepted on off h.

(** ** What the loop body decides for a record *)

Inductive category : Type := CLock | CContact | CTemperature | CSmoke.

#[global] Instance category_eq_dec : EqDecision category.
Proof. solve_decision. Defined.

Definition tag (c : category) : string :=
  match c with
  | CLock => "device_type.door_lock"
  | CContact => "device_type.door_contact"
  | CTemperature => "device_type.temperature_sensor"
  | CSmoke => "device_type.smoke_detector"
  end.

(** The category of a record, by its type tag; [None] when the tag is
    none of the four. *)
Definition category_of (device : dict) : option category :=
  match device !! "type" with
  | Some (VStr t) =>
      if decide (t = tag CLock) then Some CLock
      else if decide (t = tag CContact) then Some CContact
      else if decide (t = tag CTemperature) then Some CTemperature
      else if decide (t = tag CSmoke) then Some CSmoke
      else None
  | _ => None
  end.

Definition cat_list (c : category) (acc : lists) : list dict :=
  match c with
  | CLock => locks acc
  | CContact => door_windows acc
  | CTemperature => sensors_temperature acc
  | CSmoke => sensors_smoke acc
  end.

Definition add (c : category) (device : dict) (acc : lists) : lists :=
  match c with
  | CLock => add_lock device acc
  | CContact => add_door_window device acc
  | CTemperature => add_temperature device acc
  | CSmoke => add_smoke device acc
  end.

(** The state of a contact, as the specification words it. *)
Definition spec_contact_state (flags : string) : string :=
  if Py.str_contains "device_status.dc_close" flags then "closed"
  else if Py.str_contains "device_status.dc_open" flags then "open"
  else "unavailable".

(** A verdict: the list the record goes to, the value of [_state] and,
    when it is written, the value of [_state2]. *)
Record verdict_t : Type := Verdict {
  v_cat : category;
  v_state : pyval;
  v_state2 : option pyval;
}.

Definition write (v : option verdict_t) (device : dict) : dict :=
  match v with
  | Some v =>
      let device := set_state (v_state v) device in
      match v_state2 v with
      | Some s2 => set_state2 s2 device
      | None => device
      end
  | None => device
  end.

Definition collect (v : option verdict_t) (device : dict) (acc : lists) : lists :=
  match v with
  | Some v => add (v_cat v) device acc
  | None => acc
  end.

(** The verdict of the loop body on a record, computed without writing:
    it reads the keys [status1], [type], [minigw_lock_status],
    [status_temp] and [area] of the record, and the history and the
    reference time stamp of the bundle. *)
Definition verdict (ON OFF : pyval) (updates : updates_t) (device : dict)
  : result (option verdict_t) :=
  let* state := Py.getitem device "status1" in
  let* ty := Py.getitem device "type" in
  if decide (ty = VStr (tag CLock)) then
    let* lock_status_str := Py.getitem device "minigw_lock_status" in
    let* lock_status :=
      Py.int16 (Py.str (Py.or_else lock_status_str (VInt 0))) in
    match state with
    | VStr flags =>
        let out := spec_lock_table lock_status flags in
        Ok (Some (Verdict CLock (VStr out.1) (VStr <$> out.2)))
    | _ => Raise TypeError
    end
  else if decide (ty = VStr (tag CContact)) then
    match state with
    | VStr flags =>
        Ok (Some (Verdict CContact (VStr (spec_contact_state flags)) None))
    | _ => Raise TypeError
    end
  else if decide (ty = VStr (tag CTemperature)) then
    let* state := Py.getitem device "status_temp" in
    let* t := Py.float state in
    Ok (Some (Verdict CTemperature (VFloat t) None))
  else if decide (ty = VStr (tag CSmoke)) then
    let* on := device_on_in_updates_history device updates ON OFF 3 in
    Ok (Some (Verdict CSmoke (VStr (if on then "on" else "off")) None))
  else Ok None.

(** The exceptions of the Python run time the normalisation can raise. *)
Definition builtin_error (e : exn) : Prop :=
  e = KeyError ∨ e = ValueError ∨ e = TypeError ∨ e = OverflowError.


(** The frame of the loop body: [device'] is [device] but for the keys
    [_state] and [_state2]. *)
Definition frame (device device' : dict) : Prop :=
  ∀ k, k ≠ "_state" → k ≠ "_state2" → device' !! k = device !! k.

(** The loop body runs to its end on [device] and leaves [device']. *)
Definition processed (ON OFF : pyval) (updates : updates_t)
    (device device' : dict) : Prop :=
  ∃ v, verdict ON OFF updates device = Ok v ∧ device' = write v device.

(** The address of a record, as a key of the address maps. *)
Definition address_key (device : dict) : option pyval :=
  Py.key <$> device !! "address".


(** The list and the map of a category in a snapshot. *)
Definition snap_list (c : category) (s : snapshot) : list dict :=
  match c with
  | CLock => s_locks s
  | CContact => s_door_windows s
  | CTemperature => s_temperature_sensors s
  | CSmoke => s_smoke_sensors s
  end.

Definition snap_map (c : category) (s : snapshot) : gmap pyval pyval :=
  match c with
  | CLock => s_lock_map s
  | CContact => s_door_sensor_map s
  | CTemperature => s_temperature_map s
  | CSmoke => s_smoke_map s
  end.

(** The records of a category among [devices]. *)
Definition of_category (c : category) (devices : list dict) : list dict :=
  filter (λ d, category_of d = Some c) devices.


(** The temperature field of a record is missing or [float] refuses it. *)
Definition temperature_unparsable (device : dict) : Prop :=
  ∀ v t, device !! "status_temp" = Some v → Py.float v ≠ Ok t.

(** Modelled from the spec: the tuple [YALE_BASE_ERRORS] of [const.py],
    which is not among the sources.  The specification has the fetch
    step turn "any other client/network error" into the transient kind:
    the tuple holds the errors of the client library other than the
    authentication error. *)
Definition spec_base_errors (e : exn) : bool :=
  match e with
  | ClientError _ => true
  | _ => false
  end.


(** ** A sample panel

    Concrete records, a history and a client, on which the properties
    below are run.  The two event codes stand for the constants of
    [const.py]. *)
Definition ON_CODE : pyval := VStr "smoke_on".
Definition OFF_CODE : pyval := VStr "smoke_off".

Definition mk_dict (l : list (string * pyval)) : dict := list_to_map l.

Definition sample_lock : dict :=
  mk_dict [("type", VStr "device_type.door_lock"); ("area", VStr "1");
           ("address", VStr "RF:0a1b2c10"); ("status1", VStr "device_status.lock");
           ("minigw_lock_status", VStr "11")].

Definition sample_contact : dict :=
  mk_dict [("type", VStr "device_type.door_contact"); ("area", VStr "1");
           ("address", VStr "RF:0a1b2c11");
           ("status1", VStr "device_status.dc_open")].

Definition sample_temperature : dict :=
  mk_dict [("type", VStr "device_type.temperature_sensor"); ("area", VStr "1");
           ("address", VStr "RF:0a1b2c12"); ("status1", VStr "");
           ("status_temp", VStr "21.5")].

Definition sample_smoke : dict :=
  mk_dict [("type", VStr "device_type.smoke_detector"); ("area", VInt 2);
           ("address", VStr "RF:0a1b2c13"); ("status1", VStr "")].

Definition sample_keypad : dict :=
  mk_dict [("type", VStr "device_type.keypad"); ("area", VStr "1");
           ("address", VStr "RF:0a1b2c14"); ("status1", VStr "")].

Definition bad_temperature : dict :=
  mk_dict [("type", VStr "device_type.temperature_sensor"); ("area", VStr "1");
           ("address", VStr "RF:0a1b2c15"); ("status1", VStr "");
           ("status_temp", VStr "abc")].

Definition event (time type area event_type : string) : dict :=
  mk_dict [("time", VStr time); ("type", VStr type); ("area", VStr area);
           ("event_type", VStr event_type)].

(** The reference time stamp of the samples, 2024-01-01 12:00:00. *)
Definition sample_token_time : string := "2024-01-01 12:00:00".
Definition sample_timestamp : datetime :=
  match Py.strptime "-" (VStr sample_token_time) with
  | Ok t => t
  | Raise _ => 0
  end.

Definition sample_history : list dict :=
  [ event "2024/01/01 11:59:30" "device_type.door_contact" "1" "dc_open";
    event "2024/01/01 11:59:00" "device_type.smoke_detector" "2" "smoke_on";
    event "2024/01/01 11:58:00" "device_type.smoke_detector" "2" "smoke_off";
    event "2024/01/01 11:00:00" "device_type.smoke_detector" "2" "smoke_on" ].

Definition with_history (hist : list dict) (devices : list dict) : updates_t :=
  Updates (JScalar (VStr "disarm")) (Cycle (Some devices))
    (JScalar (VStr "ok")) (JScalar (VBool true)) (JDict [])
    hist sample_timestamp.

Definition sample_devices : list dict :=
  [sample_lock; sample_keypad; sample_contact; sample_temperature;
   sample_smoke].

Definition sample_updates : updates_t :=
  with_history sample_history sample_devices.

(** The value of a result that is known to be [Ok]. *)
Definition get_ok {A} (otherwise : A) (r : result A) : A :=
  match r with
  | Ok a => a
  | Raise _ => otherwise
  end.

Definition empty_snapshot : snapshot :=
  Snapshot (JDict []) [] [] [] [] (JDict []) (JDict []) ∅ ∅ ∅ ∅ (JDict []).

(** The bundle as the normalisation leaves it and the snapshot, for the
    sample bundle. *)
Definition sample_normalized : updates_t * snapshot :=
  get_ok (sample_updates, empty_snapshot)
    (normalize ON_CODE OFF_CODE sample_updates).

(** A client that answers with the given devices, and the coordinator
    before its first fetch. *)
Definition client_with (devices : list dict) : YaleSmartAlarmClient :=
  Client (Ok (JScalar (VStr "disarm")))
    (Ok (AllData (Some (Cycle (Some devices))) (Some sample_history)
           (Some (JScalar (VStr "ok"))) (Some (JScalar (VBool true)))
           (Some (JDict []))
           (Some (mk_dict [("token_time", VStr sample_token_time)])))).

(** A client whose answer lacks the key ["CYCLE"]. *)
Definition client_without_cycle : YaleSmartAlarmClient :=
  Client (Ok (JScalar (VStr "disarm")))
    (Ok (AllData None (Some sample_history)
           (Some (JScalar (VStr "ok"))) (Some (JScalar (VBool true)))
           (Some (JDict []))
           (Some (mk_dict [("token_time", VStr sample_token_time)])))).

Definition sample_self : coordinator :=
  Coordinator
    (mk_dict [("username", VStr "user@example.org"); ("password", VStr "secret")])
    None.


(** A log whose only entry is stamped exactly three minutes before the
    reference time stamp. *)
Definition boundary_history : list dict :=
  [ event "2024/01/01 11:57:00" "device_type.smoke_detector" "2" "smoke_on" ].

Definition boundary_updates : updates_t :=
  with_history boundary_history [sample_smoke].

(** The constructor of a client that logs in and answers with
    [devices]. *)
Definition connect_with (devices : list dict) (username password : pyval)
  : result YaleSmartAlarmClient :=
  Ok (client_with devices).

Definition connect_without_cycle (username password : pyval)
  : result YaleSmartAlarmClient :=
  Ok client_without_cycle.

(** A bundle with a temperature sensor that reports ["abc"]. *)
Definition bad_devices : list dict := [sample_lock; bad_temperature].
Definition bad_updates : updates_t := with_history sample_history bad_devices.

(** The scan for the sample smoke detector over a given log. *)
Definition smoke_case (hist : list dict) : result bool :=
  device_on_in_updates_history sample_smoke (with_history hist [sample_smoke])
    ON_CODE OFF_CODE 3.


(** ** [sensor.py] *)

(** [m[k]] on an address map. *)
Definition map_getitem (m : gmap pyval pyval) (k : pyval) : result pyval :=
  match m !! Py.key k with
  | Some v => Ok v
  | None => Raise KeyError
  end.

(** [YaleTemperatureSensor.state], lines 42-45 of [sensor.py]:
    [float(self.coordinator.data["temperature_map"][self._attr_unique_id])],
    with [data] the snapshot the coordinator holds.  The unique id is set
    by [YaleEntity] ([entity.py], not among the sources): it is a
    parameter. *)
Definition sensor_state (data : snapshot) (_attr_unique_id : pyval)
  : result pyfloat :=
  let* v := map_getitem (s_temperature_map data) _attr_unique_id in
  Py.float v.

(** ** What the records of a snapshot can hold *)

(** The pairs ([_state], [_state2]) the lock branch writes together. *)
Definition lock_pairs : list (string * string) :=
  [("locked", "unknown"); ("unlocked", "unknown"); ("locked", "closed");
   ("unlocked", "closed"); ("unlocked", "open")].

Definition state_domain (c : category) (device : dict) : Prop :=
  match c with
  | CLock =>
      device !! "_state" = Some (VStr "unavailable") ∨
      ∃ p, p ∈ lock_pairs ∧ device !! "_state" = Some (VStr p.1) ∧
           device !! "_state2" = Some (VStr p.2)
  | CContact =>
      ∃ s, s ∈ ["closed"; "open"; "unavailable"] ∧
           device !! "_state" = Some (VStr s)
  | CTemperature => ∃ t, device !! "_state" = Some (VFloat t)
  | CSmoke =>
      ∃ s, s ∈ ["on"; "off"] ∧ device !! "_state" = Some (VStr s)
  end.

(** The loop body runs to its end on a record taken alone. *)
Definition body_succeeds (ON OFF : pyval) (updates : updates_t) (device : dict)
  : Prop :=
  ∃ r, loop_body ON OFF updates device (Lists [] [] [] []) = Ok r.

(** Reading and parsing the time stamp of a history entry, lines 48-49. *)
Definition read_time (hist_item : dict) : result datetime :=
  let* hist_time := Py.getitem hist_item "time" in
  Py.strptime "/" hist_time.

(** ** More sample records *)

(** Two contacts that report the same address, the first open and the
    second closed. *)
Definition contact_at (address flags : string) : dict :=
  mk_dict [("type", VStr "device_type.door_contact"); ("area", VStr "1");
           ("address", VStr address); ("status1", VStr flags)].

Definition duplicate_devices : list dict :=
  [contact_at "RF:0a1b2c20" "device_status.dc_open";
   contact_at "RF:0a1b2c20" "device_status.dc_close"].

Definition duplicate_updates : updates_t :=
  with_history sample_history duplicate_devices.

Definition duplicate_normalized : updates_t * snapshot :=
  get_ok (duplicate_updates, empty_snapshot)
    (normalize ON_CODE OFF_CODE duplicate_updates).

(** A contact whose [status1] is null. *)
Definition null_status_contact : dict :=
  mk_dict [("type", VStr "device_type.door_contact"); ("area", VStr "1");
           ("address", VStr "RF:0a1b2c21"); ("status1", VNone)].

(** An entry with no time stamp and an entry whose time stamp is no
    date. *)
Definition entry_without_time : dict :=
  mk_dict [("type", VStr "device_type.smoke_detector"); ("area", VStr "2");
           ("event_type", VStr "smoke_on")].

Definition entry_with_bad_time : dict :=
  event "yesterday" "device_type.smoke_detector" "2" "smoke_on".

(** A log that goes wrong after its first entries. *)
Definition ragged_history : list dict :=
  [ event "2024/01/01 11:59:30" "device_type.door_contact" "1" "dc_open";
    event "2024/01/01 11:59:00" "device_type.smoke_detector" "2" "smoke_on";
    entry_without_time; entry_with_bad_time ].

Definition ragged_updates : updates_t :=
  with_history ragged_history [sample_smoke].

Definition bad_time_updates : updates_t :=
  with_history [entry_with_bad_time] [sample_smoke].

(** A constructor that refuses the credentials. *)
Definition connect_refused (username password : pyval)
  : result YaleSmartAlarmClient :=
  Raise AuthenticationError.

(** A coordinator whose entry has no password. *)
Definition self_without_password : coordinator :=
  Coordinator (mk_dict [("username", VStr "user@example.org")]) None.


(** A lock whose record has no key [minigw_lock_status]. *)
Definition lock_without_status : dict :=
  mk_dict [("type", VStr "device_type.door_lock"); ("area", VStr "1");
           ("address", VStr "RF:0a1b2c16");
           ("status1", VStr "device_status.lock")].

(** * Properties *)

Lemma getitem_Some (d : dict) k v : d !! k = Some v → Py.getitem d k = Ok v.
Proof. unfold Py.getitem. by intros ->. Qed.

Lemma getitem_None (d : dict) k : d !! k = None → Py.getitem d k = Raise KeyError.
Proof. unfold Py.getitem. by intros ->. Qed.

Lemma type_is_str (d : dict) t tag :
  d !! "type" = Some (VStr t) →
  type_is d tag = Ok (bool_decide (t = tag)).
Proof.
  intros H. unfold type_is. rewrite (getitem_Some _ _ _ H). cbn.
  f_equal. apply bool_decide_ext. split; congruence.
Qed.

(** *** Hexadecimal strings *)

Lemma hex_val_not_space c : is_Some (Py.hex_val c) → Py.is_space c = false.
Proof.
  intros [v Hv]. revert Hv. unfold Py.hex_val, Py.is_space.
  destruct c as [[] [] [] [] [] [] [] []]; vm_compute; congruence.
Qed.

Lemma scan_hex_all (s : list ascii) n acc :
  Forall (λ c, is_Some (Py.hex_val c)) s →
  Py.scan_hex s false n acc =
    Some (foldl (λ acc c, 16 * acc + default 0 (Py.hex_val c)) acc s,
          (n + length s)%nat, []).
Proof.
  intros Hs. revert n acc. induction Hs as [|c s [d Hd] _ IH]; intros n acc.
  - cbn. by rewrite Nat.add_0_r.
  - cbn [Py.scan_hex foldl length].
    assert (Ascii.eqb c "_" = false) as ->.
    { destruct (Ascii.eqb_spec c "_") as [->|]; [|done]. by vm_compute in Hd. }
    rewrite Hd, IH. cbn. repeat f_equal. lia.
Qed.

Lemma int16_plain_hex (s : string) :
  s ≠ "" → all_hex s → Py.int16 s = Ok (hex_number s).
Proof.
  unfold all_hex, hex_number, Py.int16, Py.int16_of_chars, Py.chars.
  destruct s as [|c s]; [done|]. intros _ Hs. cbn [list_ascii_of_string] in *.
  pose proof (Forall_inv Hs) as Hc. pose proof (Forall_inv_tail Hs) as Hs'.
  cbn [Py.lstrip]. rewrite (hex_val_not_space _ Hc).
  assert (Py.skip_sign (c :: list_ascii_of_string s)
          = (false, c :: list_ascii_of_string s)) as ->.
  { destruct Hc as [v Hv]. revert Hv.
    destruct c as [[] [] [] [] [] [] [] []]; vm_compute; congruence. }
  assert (Py.skip_0x (c :: list_ascii_of_string s)
          = c :: list_ascii_of_string s) as ->.
  { unfold Py.skip_0x.
    destruct (list_ascii_of_string s) as [|x s0] eqn:E.
    - by destruct c as [[] [] [] [] [] [] [] []].
    - pose proof (Forall_inv Hs') as [v Hv].
      assert (Ascii.eqb (Py.lower x) "x" = false) as ->.
      { revert Hv. destruct x as [[] [] [] [] [] [] [] []]; vm_compute; congruence. }
      by destruct c as [[] [] [] [] [] [] [] []]. }
  rewrite (scan_hex_all _ _ _ Hs).
  assert (∀ (X : Type) (a b : X), match c :: list_ascii_of_string s with
            | "_"%char :: _ => a | _ => b end = b) as Hm.
  { intros X a b. destruct Hc as [v Hv]. revert Hv.
    destruct c as [[] [] [] [] [] [] [] []]; vm_compute; congruence. }
  rewrite Hm. cbn. done.
Qed.

(** *** Bit tests *)

Lemma land_pow2 (n k : Z) :
  0 ≤ k → Z.land n (2 ^ k) = if Z.testbit n k then 2 ^ k else 0.
Proof.
  intros Hk. apply Z.bits_inj'. intros i Hi.
  rewrite Z.land_spec, Z.pow2_bits_eqb by done.
  destruct (Z.eqb_spec k i) as [->|Hne].
  - destruct (Z.testbit n i); cbn.
    + rewrite Z.pow2_bits_eqb by done. by rewrite Z.eqb_refl.
    + by rewrite Z.bits_0.
  - rewrite andb_false_r. destruct (Z.testbit n k).
    + rewrite Z.pow2_bits_eqb by done. symmetry. by apply Z.eqb_neq.
    + by rewrite Z.bits_0.
Qed.

Lemma land_16_test (n : Z) : (Z.land n 16 =? 16) = negb (Z.land n 16 =? 0).
Proof.
  change 16 with (2 ^ 4). rewrite land_pow2 by lia.
  by destruct (Z.testbit n 4).
Qed.

Lemma land_1_test (n : Z) : (Z.land n 1 =? 1) = negb (Z.land n 1 =? 0).
Proof.
  change 1 with (2 ^ 0). rewrite land_pow2 by lia.
  by destruct (Z.testbit n 0).
Qed.

(** *** The lock branch *)

Lemma lock_branch_table (device : dict) (acc : lists) (flags : string)
    (v : pyval) (bitmask : Z) :
  device !! "minigw_lock_status" = Some v →
  Py.int16 (Py.str (Py.or_else v (VInt 0))) = Ok bitmask →
  let device' := write_outcome (spec_lock_table bitmask flags) device in
  lock_branch (VStr flags) device acc = Ok (device', add_lock device' acc).
Proof.
  intros Hv Hn. unfold lock_branch.
  rewrite (getitem_Some _ _ _ Hv). cbn [bind]. rewrite Hn. cbn [bind].
  rewrite land_16_test, land_1_test.
  unfold spec_lock_table, spec_lock_rules, write_outcome, or_else, and_then.
  cbn [Py.contains bind first_match].
  destruct (bitmask =? 0);
    destruct (Py.str_contains "device_status.lock" flags);
    destruct (Py.str_contains "device_status.unlock" flags);
    destruct (Z.land bitmask 16 =? 0);
    destruct (Z.land bitmask 1 =? 0); reflexivity.
Qed.

Lemma write_outcome_state out (device : dict) :
  write_outcome out device !! "_state" = Some (VStr out.1).
Proof.
  unfold write_outcome, set_state, set_state2. destruct out as [s [s2|]]; cbn.
  - rewrite lookup_insert_ne by done. apply lookup_insert_eq.
  - apply lookup_insert_eq.
Qed.

Lemma write_outcome_state2 out (device : dict) :
  write_outcome out device !! "_state2" =
    match out.2 with
    | Some s2 => Some (VStr s2)
    | None => device !! "_state2"
    end.
Proof.
  unfold write_outcome, set_state, set_state2. destruct out as [s [s2|]]; cbn.
  - apply lookup_insert_eq.
  - by rewrite lookup_insert_ne.
Qed.

Lemma write_outcome_other out (device : dict) k :
  k ≠ "_state" → k ≠ "_state2" →
  write_outcome out device !! k = device !! k.
Proof.
  intros H1 H2. unfold write_outcome, set_state, set_state2.
  destruct out as [s [s2|]]; cbn; by rewrite !lookup_insert_ne by done.
Qed.

(** C1, as the code has it.  A lock record whose [status1] is a string.
    Without the key [minigw_lock_status] the loop body raises [KeyError]
    (line 76 subscripts the record).  With the key, and a field that
    parses, base 16, to [bitmask]: a null or empty field is the bitmask
    zero, a string of hexadecimal digits is the number it denotes, and
    the loop body leaves a record that reads, under [_state] and
    [_state2], the outcome of the first matching rule of the six-rule
    table (with closed = bitmask & 16 != 0 and locked = bitmask & 1 !=
    0; rule 6 leaves [_state2] as it was), has every other key as it
    was, and is appended to the locks and to no other list. *)
Theorem lock_decision_table (ON OFF : pyval) (updates : updates_t)
    (device : dict) (acc : lists) (flags : string) :
  device !! "type" = Some (VStr "device_type.door_lock") →
  device !! "status1" = Some (VStr flags) →
  (device !! "minigw_lock_status" = None →
     loop_body ON OFF updates device acc = Raise KeyError) ∧
  (∀ v bitmask,
     device !! "minigw_lock_status" = Some v →
     Py.int16 (Py.str (Py.or_else v (VInt 0))) = Ok bitmask →
     (v = VNone ∨ v = VStr "" → bitmask = 0) ∧
     (∀ h, v = VStr h → h ≠ "" → all_hex h → bitmask = hex_number h) ∧
     ∃ device' acc',
       loop_body ON OFF updates device acc = Ok (device', acc') ∧
       device' !! "_state" = Some (VStr (spec_lock_table bitmask flags).1) ∧
       device' !! "_state2" =
         match (spec_lock_table bitmask flags).2 with
         | Some s2 => Some (VStr s2)
         | None => device !! "_state2"
         end ∧
       (∀ k, k ≠ "_state" → k ≠ "_state2" → device' !! k = device !! k) ∧
       locks acc' = (locks acc ++ [device'])%list ∧
       door_windows acc' = door_windows acc ∧
       sensors_temperature acc' = sensors_temperature acc ∧
       sensors_smoke acc' = sensors_smoke acc).
Proof.
  intros Hty Hst.
  assert (loop_body ON OFF updates device acc =
          lock_branch (VStr flags) device acc) as Ebody.
  { unfold loop_body. rewrite (getitem_Some _ _ _ Hst). cbn [bind].
    rewrite (type_is_str _ _ _ Hty). cbn [bind].
    by rewrite bool_decide_eq_true_2 by done. }
  split.
  { intros Hnone. rewrite Ebody. unfold lock_branch.
    by rewrite (getitem_None _ _ Hnone). }
  intros v bitmask Hv Hn. split; [|split].
  - intros [->| ->]; vm_compute in Hn; congruence.
  - intros h -> Hne Hhex.
    assert (Py.or_else (VStr h) (VInt 0) = VStr h) as E.
    { unfold Py.or_else. cbn. destruct (String.eqb_spec h ""); [done|]. done. }
    rewrite E in Hn. cbn [Py.str] in Hn.
    rewrite (int16_plain_hex h Hne Hhex) in Hn. congruence.
  - rewrite Ebody, (lock_branch_table device acc flags v bitmask Hv Hn).
    eexists _, _. split; [reflexivity|].
    split; [apply write_outcome_state|].
    split; [apply write_outcome_state2|].
    split; [apply write_outcome_other|]. done.
Qed.

(** The six rules at the boundary bitmasks 0x00, 0x01, 0x10 and 0x11. *)
Example lock_rule_1 : spec_lock_table 0x00 "device_status.lock" = ("locked", Some "unknown").
Proof. reflexivity. Qed.
Example lock_rule_2 : spec_lock_table 0x00 "device_status.unlock" = ("unlocked", Some "unknown").
Proof. reflexivity. Qed.
Example lock_rule_3 : spec_lock_table 0x11 "device_status.unlock" = ("locked", Some "closed").
Proof. reflexivity. Qed.
Example lock_rule_4 : spec_lock_table 0x10 "device_status.lock" = ("unlocked", Some "closed").
Proof. reflexivity. Qed.
Example lock_rule_5 : spec_lock_table 0x01 "device_status.lock" = ("unlocked", Some "open").
Proof. reflexivity. Qed.
Example lock_rule_6 : spec_lock_table 0x11 "device_status.dc_open" = ("unavailable", None).
Proof. reflexivity. Qed.

(** *** What [str] gives on a value that is no string *)

(** The first character of [str(v)] for [v] a number, a boolean or
    [None]: a digit, a sign, or the first letter of [None], [True],
    [False], [nan], [inf]. *)
Definition scalar_head (c : ascii) : bool :=
  Py.is_digit c || bool_decide (c ∈ Py.chars "-NTFni").

Definition head_ok (s : string) : Prop :=
  ∃ c r, s = String c r ∧ scalar_head c = true.

Lemma pretty_N_char_digit x : Py.is_digit (pretty_N_char x) = true.
Proof. unfold pretty_N_char. by repeat case_match. Qed.

Lemma pretty_N_go_head x s :
  (0 < x)%N → ∃ c r, pretty_N_go x s = String c r ∧ Py.is_digit c = true.
Proof.
  revert s. induction (N.lt_wf_0 x) as [x _ IH]. intros s Hx.
  rewrite pretty_N_go_step by done.
  destruct (decide (x `div` 10 = 0)%N) as [E|E].
  - rewrite E, pretty_N_go_0. eauto using pretty_N_char_digit.
  - apply IH; [by apply N.div_lt | by apply N.neq_0_lt_0].
Qed.

Lemma pretty_N_head (x : N) :
  ∃ c r, pretty x = String c r ∧ Py.is_digit c = true.
Proof.
  unfold pretty, pretty_N. case_decide.
  - by exists "0"%char, "".
  - apply pretty_N_go_head. lia.
Qed.

Lemma head_ok_app s t : head_ok s → head_ok (s ++ t).
Proof. intros (c & r & -> & Hc). by exists c, (r ++ t). Qed.

Lemma head_ok_substring s n : head_ok s → head_ok (substring 0 (S n) s).
Proof. intros (c & r & -> & Hc). by exists c, (substring 0 n r). Qed.

Lemma head_ok_digit c r : Py.is_digit c = true → head_ok (String c r).
Proof. intros H. exists c, r. split; [done|]. unfold scalar_head. by rewrite H. Qed.

Lemma pretty_N_head_ok (x : N) : head_ok (pretty x).
Proof. destruct (pretty_N_head x) as (c & r & -> & Hc). by apply head_ok_digit. Qed.

Lemma float_repr_head_ok f : head_ok (Py.float_repr f).
Proof.
  destruct f as [|[]|neg m e]; cbn [Py.float_repr].
  - by exists "n"%char, "an".
  - by exists "-"%char, "inf".
  - by exists "i"%char, "nf".
  - destruct neg; [by eexists "-"%char, _|].
    cbn [String.append]. case_match; [by apply head_ok_digit|].
    pose proof (pretty_N_head_ok m) as Hm.
    repeat case_match; try by apply head_ok_digit.
    all: match goal with |- head_ok ("" +:+ ?x) => change (head_ok x) end.
    + by apply head_ok_app.
    + destruct (Z.to_nat _) eqn:E; [lia|].
      by apply head_ok_app, head_ok_substring.
    + by apply head_ok_app, head_ok_substring.
    + by apply head_ok_app, head_ok_substring.
Qed.

Lemma str_head_ok v : (∀ s, v ≠ VStr s) → head_ok (Py.str v).
Proof.
  destruct v as [|[]|z|f|s]; intros Hv; cbn [Py.str].
  - by exists "N"%char, "one".
  - by exists "T"%char, "rue".
  - by exists "F"%char, "alse".
  - destruct z as [|p|p]; cbn.
    + by exists "0"%char, "".
    + apply pretty_N_head_ok.
    + by eexists "-"%char, _.
  - apply float_repr_head_ok.
  - by destruct (Hv s).
Qed.

(** A tag that starts with a lower-case [d] is the [str] of the string
    itself and of no other value. *)
Lemma str_eq_tag v r : Py.str v = String "d" r → v = VStr (String "d" r).
Proof.
  intros H. destruct v as [| | | |s] eqn:Ev; [..|cbn in H; by subst].
  all: destruct (str_head_ok v) as (c & r' & E & Hc); [by subst|].
  all: subst v; rewrite E in H; injection H as -> _; done.
Qed.

(** *** The history scan *)

Lemma equal_str_l s c : Py.equal (VStr s) c = bool_decide (c = VStr s).
Proof.
  destruct c as [|b|z|f|s']; cbn; try done.
  - destruct f as [| |neg m e]; try done. cbn.
    unfold Py.float_integral. by case_match.
  - apply bool_decide_ext. split; congruence.
Qed.

Lemma equal_str_r s c : Py.equal c (VStr s) = bool_decide (c = VStr s).
Proof.
  destruct c as [|b|z|f|s']; cbn; try done.
  destruct f as [| |neg m e]; try done. cbn.
  unfold Py.float_integral. by case_match.
Qed.

Lemma has_code_distinct on off h :
  on ≠ off → has_code on h = true → has_code off h = false.
Proof.
  unfold has_code. destruct (h !! "event_type") as [ev|]; [|done].
  rewrite !equal_str_l. intros Hne Hon%bool_decide_eq_true.
  apply bool_decide_eq_false. congruence.
Qed.

Section Scan.

Variables (device : dict) (accepted : datetime) (on off : pyval).
Hypothesis device_type :
  device !! "type" = Some (VStr "device_type.smoke_detector").
Hypothesis device_area : is_Some (device !! "area").

(** One turn of the loop on a well-formed entry. *)
Lemma history_loop_step (h : dict) (rest : list dict) :
  well_formed_entry h →
  history_loop device accepted on off (h :: rest) =
    if negb (in_window accepted h) then Ok false
    else if negb (same_device device h) then
      history_loop device accepted on off rest
    else if has_code off h then Ok false
    else if has_code on h then Ok true
    else history_loop device accepted on off rest.
Proof.
  intros ((t & Ht) & (ty & Hty) & (ar & Har) & (ev & Hev)).
  destruct device_area as (dar & Hdar).
  unfold in_window, same_device, has_code, field_str.
  rewrite Ht, Hty, Har, Hev, device_type, Hdar. cbn [fmap option_fmap option_map].
  unfold entry_time in Ht. cbn [history_loop].
  destruct (h !! "time") as [tv|] eqn:Htv; [|done].
  rewrite (getitem_Some _ _ _ Htv). cbn [bind].
  destruct (Py.strptime "/" tv) as [t'|] eqn:Hp; [|done].
  injection Ht as ->. cbn [bind].
  rewrite (Z.leb_antisym t accepted), negb_involutive.
  destruct (t <? accepted); [done|].
  rewrite (getitem_Some _ _ _ Hty), (getitem_Some _ _ _ device_type).
  cbn [bind]. rewrite equal_str_r.
  rewrite (getitem_Some _ _ _ Har), (getitem_Some _ _ _ Hdar),
    (getitem_Some _ _ _ Hev). cbn [bind].
  destruct (decide (ty = VStr "device_type.smoke_detector")) as [->|Hne].
  - rewrite bool_decide_eq_true_2 by done. cbn [negb Py.str].
    destruct (decide (Py.str ar = Py.str dar)) as [Ea|Ea].
    + rewrite (bool_decide_eq_false_2 (_ ≠ _)) by tauto.
      rewrite bool_decide_eq_true_2 by (by rewrite Ea). done.
    + rewrite (bool_decide_eq_true_2 (_ ≠ _)) by done.
      rewrite bool_decide_eq_false_2; [done|]. intros [_ [=]]. done.
  - rewrite bool_decide_eq_false_2 by done. cbn [negb].
    rewrite bool_decide_eq_false_2; [done|].
    intros [[= E] _]. apply str_eq_tag in E. done.
Qed.

(** The scan on a well-formed log: the first entry at which the scan
    stops decides, and it gives active when it is within the window and
    no off event. *)
Lemma history_loop_find (hist : list dict) :
  Forall well_formed_entry hist →
  history_loop device accepted on off hist =
    Ok (match find (stops device accepted on off) hist with
        | Some h => in_window accepted h && negb (has_code off h)
        | None => false
        end).
Proof.
  induction 1 as [|h rest Hh _ IH]; [done|].
  rewrite (history_loop_step _ _ Hh), IH. cbn [find].
  change (stops device accepted on off h) with
    (negb (in_window accepted h) ||
     in_window accepted h && same_device device h &&
     (has_code on h || has_code off h)).
  destruct (in_window accepted h) eqn:Ew; cbn [negb orb andb];
    [|by rewrite Ew].
  destruct (same_device device h); cbn [negb andb]; [|done].
  destruct (has_code off h) eqn:Eoff.
  { by rewrite orb_true_r, Ew, Eoff. }
  rewrite orb_false_r. destruct (has_code on h); [|done].
  by rewrite Ew, Eoff.
Qed.

End Scan.

Lemma find_none_stops_not {A} (f : A → bool) (l : list A) :
  (∀ x, x ∈ l → f x = false) → find f l = None.
Proof.
  induction l as [|x l IH]; [done|]. intros H. cbn.
  rewrite (H x) by left. apply IH. intros y Hy. apply H. by right.
Qed.

Lemma find_app_skip {A} (f : A → bool) (pre : list A) (x : A) (rest : list A) :
  (∀ y, y ∈ pre → f y = false) → f x = true →
  find f (pre ++ x :: rest) = Some x.
Proof.
  induction pre as [|y pre IH]; intros Hpre Hx; cbn.
  - by rewrite Hx.
  - rewrite (Hpre y) by left. apply IH; [|done].
    intros z Hz. apply Hpre. by right.
Qed.

(** In a log that is newest first, nothing after an entry older than
    the window is within the window. *)
Lemma newest_first_out (accepted : datetime) (h : dict) (rest : list dict) :
  well_formed_entry h → Forall well_formed_entry rest →
  newest_first (h :: rest) → in_window accepted h = false →
  ∀ h', h' ∈ rest → in_window accepted h' = false.
Proof.
  intros ((t & Ht) & _) Hwf [Hall _] Hout h' Hin.
  rewrite Forall_forall in Hall, Hwf.
  destruct (Hwf h' Hin) as ((t' & Ht') & _).
  specialize (Hall h' Hin t t' Ht Ht').
  unfold in_window in *. rewrite Ht in Hout. rewrite Ht'.
  apply Z.leb_gt in Hout. apply Z.leb_gt. lia.
Qed.

(** On a log that is newest first the first stopping entry and the first
    decisive entry give the same verdict. *)
Lemma find_stops_decisive (device : dict) (accepted : datetime)
    (on off : pyval) (hist : list dict) :
  Forall well_formed_entry hist → newest_first hist →
  match find (stops device accepted on off) hist with
  | Some h => in_window accepted h && negb (has_code off h)
  | None => false
  end =
  match find (decisive device accepted on off) hist with
  | Some h => negb (has_code off h)
  | None => false
  end.
Proof.
  induction 1 as [|h rest Hh Hrest IH]; [done|]. intros Hsorted.
  cbn [find]. unfold stops at 1.
  destruct (in_window accepted h) eqn:Ew; cbn [negb orb].
  - destruct (decisive device accepted on off h); [by rewrite Ew|].
    apply IH. apply Hsorted.
  - assert (decisive device accepted on off h = false) as ->.
    { unfold decisive. by rewrite Ew. }
    rewrite Ew. cbn [andb]. rewrite find_none_stops_not; [done|].
    intros h' Hin. unfold decisive.
    by rewrite (newest_first_out accepted h rest Hh Hrest Hsorted Ew h' Hin).
Qed.

Lemma find_decisive_Some (device : dict) (accepted : datetime)
    (on off : pyval) (hist : list dict) (h : dict) :
  find (decisive device accepted on off) hist = Some h →
  has_code on h = true ∨ has_code off h = true.
Proof.
  intros [_ Hd]%find_some. unfold decisive in Hd.
  apply andb_true_iff in Hd as [_ Hd]. by apply orb_true_iff in Hd.
Qed.

(** C2. The history scan for a smoke detector, on a log of well-formed
    entries with an on code and an off code that differ and [accepted]
    the reference time stamp minus the window: the scan returns, and on a
    log that is newest first it returns active exactly when the first
    entry that is within the window, about the device (type and area
    compared as strings) and an on or off event, is an on event.  It
    returns inactive when that entry is an off event, when the scan
    reaches an entry older than the window, when no entry stops the
    scan, and on the empty log. *)
Theorem smoke_history_scan (device : dict) (updates : updates_t)
    (on off : pyval) (minutes : Z) (accepted : datetime) :
  device !! "type" = Some (VStr "device_type.smoke_detector") →
  is_Some (device !! "area") →
  on ≠ off →
  Py.sub_minutes (update_timestamp updates) minutes = Ok accepted →
  Forall well_formed_entry (history updates) →
  ∃ active : bool,
    device_on_in_updates_history device updates on off minutes = Ok active ∧
    (newest_first (history updates) →
       (active = true ↔
        ∃ h, find (decisive device accepted on off) (history updates) = Some h
             ∧ has_code on h = true) ∧
       (∀ h, find (decisive device accepted on off) (history updates) = Some h →
             has_code off h = true → active = false)) ∧
    (∀ (pre : list dict) (old : dict) (rest : list dict),
       history updates = (pre ++ old :: rest)%list →
       (∀ h, h ∈ pre → stops device accepted on off h = false) →
       in_window accepted old = false → active = false) ∧
    ((∀ h, h ∈ history updates → stops device accepted on off h = false) →
       active = false) ∧
    (history updates = [] → active = false).
Proof.
  intros Hty Har Hne Hacc Hwf. eexists. split.
  { unfold device_on_in_updates_history. rewrite Hacc. cbn [bind].
    by apply history_loop_find. }
  split; [|split; [|split]].
  - intros Hsorted. rewrite (find_stops_decisive _ _ _ _ _ Hwf Hsorted).
    destruct (find _ _) as [h|] eqn:Ef.
    + pose proof (find_decisive_Some _ _ _ _ _ _ Ef) as Hcode. split.
      * split.
        -- intros Hoff%negb_true_iff. exists h. split; [done|].
           destruct Hcode as [?|Hc]; [done|congruence].
        -- intros (h' & [= <-] & Hon).
           by rewrite (has_code_distinct on off h Hne Hon).
      * intros h' [= <-] ->. done.
    + split; [|done]. split; [done|]. by intros (h' & [=] & _).
  - intros pre old rest -> Hpre Hold.
    rewrite (find_app_skip _ pre old rest Hpre).
    + by rewrite Hold.
    + unfold stops. by rewrite Hold.
  - intros Hnone. by rewrite (find_none_stops_not _ _ Hnone).
  - by intros ->.
Qed.

Lemma history_loop_skip (device : dict) (accepted : datetime) (on off : pyval)
    (pre hist : list dict) :
  device !! "type" = Some (VStr "device_type.smoke_detector") →
  is_Some (device !! "area") →
  Forall well_formed_entry pre →
  (∀ h, h ∈ pre → stops device accepted on off h = false) →
  history_loop device accepted on off (pre ++ hist) =
  history_loop device accepted on off hist.
Proof.
  intros Hty Har Hwf. induction Hwf as [|h pre Hh _ IH]; [done|].
  intros Hpre. cbn [app].
  rewrite (history_loop_step _ _ _ _ Hty Har _ _ Hh).
  pose proof (Hpre h ltac:(left)) as Hs. unfold stops, decisive in Hs.
  apply orb_false_iff in Hs as [Hw%negb_false_iff Hd]. rewrite Hw in *.
  cbn [negb andb] in *.
  assert (∀ h', h' ∈ pre → stops device accepted on off h' = false) as Hpre'.
  { intros h' Hin. apply Hpre. by right. }
  destruct (same_device device h); cbn [negb andb] in *; [|by apply IH].
  apply orb_false_iff in Hd as [-> ->]. by apply IH.
Qed.

(** C10. The window bound is inclusive.  When the scan reaches an entry
    stamped exactly [accepted], the reference time stamp minus the window
    (the entries before it are well formed and none of them stops the
    scan), the entry is within the window and the scan does not stop on
    its time stamp: the entry decides when it is about the device and an
    on or off event (active for an on event, inactive for an off event)
    and the scan goes on with the next entry otherwise. *)
Theorem window_bound_inclusive (device : dict) (updates : updates_t)
    (on off : pyval) (minutes : Z) (accepted : datetime)
    (pre : list dict) (h : dict) (rest : list dict) :
  device !! "type" = Some (VStr "device_type.smoke_detector") →
  is_Some (device !! "area") →
  Py.sub_minutes (update_timestamp updates) minutes = Ok accepted →
  history updates = (pre ++ h :: rest)%list →
  Forall well_formed_entry pre →
  (∀ h', h' ∈ pre → stops device accepted on off h' = false) →
  well_formed_entry h →
  entry_time h = Some accepted →
  in_window accepted h = true ∧
  device_on_in_updates_history device updates on off minutes =
    (if negb (same_device device h) then
       history_loop device accepted on off rest
     else if has_code off h then Ok false
     else if has_code on h then Ok true
     else history_loop device accepted on off rest) ∧
  (same_device device h = true → has_code off h = false →
   has_code on h = true →
   device_on_in_updates_history device updates on off minutes = Ok true).
Proof.
  intros Hty Har Hacc Hhist Hpre Hskip Hh Ht.
  assert (in_window accepted h = true) as Hw.
  { unfold in_window. rewrite Ht. apply Z.leb_refl. }
  assert (device_on_in_updates_history device updates on off minutes =
          history_loop device accepted on off (h :: rest)) as E.
  { unfold device_on_in_updates_history. rewrite Hacc, Hhist. cbn [bind].
    by apply history_loop_skip. }
  rewrite E, (history_loop_step _ _ _ _ Hty Har _ _ Hh), Hw. cbn [negb].
  split; [done|]. split; [done|]. by intros -> -> ->.
Qed.

(** *** Door and window contacts *)

(** C8. A door or window contact whose [status1] is a string: the loop
    body appends the record to the contacts with [_state] closed when the
    flags hold the closed marker, open when they hold the open marker and
    not the closed one, unavailable when they hold neither. *)
Theorem contact_state (ON OFF : pyval) (updates : updates_t)
    (device : dict) (acc : lists) (flags : string) :
  device !! "type" = Some (VStr "device_type.door_contact") →
  device !! "status1" = Some (VStr flags) →
  let closed := Py.str_contains "device_status.dc_close" flags in
  let open := Py.str_contains "device_status.dc_open" flags in
  ∃ device',
    loop_body ON OFF updates device acc
      = Ok (device', add_door_window device' acc) ∧
    (closed = true → device' !! "_state" = Some (VStr "closed")) ∧
    (closed = false → open = true → device' !! "_state" = Some (VStr "open")) ∧
    (closed = false → open = false →
       device' !! "_state" = Some (VStr "unavailable")).
Proof.
  intros Hty Hst closed open. unfold loop_body.
  rewrite (getitem_Some _ _ _ Hst). cbn [bind].
  rewrite !(type_is_str _ _ _ Hty). cbn [bind].
  rewrite bool_decide_eq_false_2 by done.
  rewrite bool_decide_eq_true_2 by done.
  unfold contact_branch. cbn [Py.contains bind]. fold closed open.
  destruct closed, open; eexists; (split; [reflexivity|]);
    unfold set_state; rewrite lookup_insert_eq; done.
Qed.

(** *** The loop body, as a verdict followed by a write *)

Lemma type_is_equal (d : dict) ty t :
  d !! "type" = Some ty → type_is d t = Ok (bool_decide (ty = VStr t)).
Proof.
  intros H. unfold type_is. rewrite (getitem_Some _ _ _ H). cbn [bind].
  by rewrite equal_str_r.
Qed.

Lemma lock_branch_verdict (state : pyval) (device : dict) (acc : lists) :
  lock_branch state device acc =
    let* lock_status_str := Py.getitem device "minigw_lock_status" in
    let* lock_status :=
      Py.int16 (Py.str (Py.or_else lock_status_str (VInt 0))) in
    match state with
    | VStr flags =>
        let out := spec_lock_table lock_status flags in
        let v := Some (Verdict CLock (VStr out.1) (VStr <$> out.2)) in
        Ok (write v device, collect v (write v device) acc)
    | _ => Raise TypeError
    end.
Proof.
  destruct (device !! "minigw_lock_status") as [lss|] eqn:Hl.
  2:{ unfold lock_branch. by rewrite (getitem_None _ _ Hl). }
  destruct (Py.int16 (Py.str (Py.or_else lss (VInt 0)))) as [n|e] eqn:Hn.
  2:{ unfold lock_branch. rewrite (getitem_Some _ _ _ Hl). cbn [bind].
      by rewrite Hn. }
  destruct state as [| | | |flags].
  5:{ rewrite (lock_branch_table device acc flags lss n Hl Hn).
      rewrite (getitem_Some _ _ _ Hl). cbn [bind]. rewrite Hn. cbn [bind].
      unfold write_outcome, write, collect. cbn [v_state v_state2 v_cat add].
      by destruct (spec_lock_table n flags) as [s [s2|]]. }
  all: unfold lock_branch; rewrite (getitem_Some _ _ _ Hl); cbn [bind];
    rewrite Hn; cbn [bind]; unfold and_then, or_else;
    by destruct (n =? 0).
Qed.

Lemma contact_branch_verdict (state : pyval) (device : dict) (acc : lists) :
  contact_branch state device acc =
    match state with
    | VStr flags =>
        let v := Some (Verdict CContact (VStr (spec_contact_state flags)) None) in
        Ok (write v device, collect v (write v device) acc)
    | _ => Raise TypeError
    end.
Proof.
  destruct state as [| | | |flags]; try done.
  unfold contact_branch, spec_contact_state. cbn [Py.contains bind].
  by repeat case_match.
Qed.

Lemma loop_body_verdict (ON OFF : pyval) (updates : updates_t)
    (device : dict) (acc : lists) :
  loop_body ON OFF updates device acc =
    let* v := verdict ON OFF updates device in
    Ok (write v device, collect v (write v device) acc).
Proof.
  unfold loop_body, verdict.
  destruct (device !! "status1") as [state|] eqn:Hst.
  2:{ by rewrite (getitem_None _ _ Hst). }
  rewrite (getitem_Some _ _ _ Hst). cbn [bind].
  destruct (device !! "type") as [ty|] eqn:Hty.
  2:{ unfold type_is. by rewrite (getitem_None _ _ Hty). }
  rewrite !(type_is_equal _ _ _ Hty), (getitem_Some _ _ _ Hty). cbn [bind].
  destruct (decide (ty = VStr (tag CLock))) as [E|E].
  { rewrite bool_decide_eq_true_2 by done. rewrite lock_branch_verdict.
    destruct (Py.getitem device "minigw_lock_status"); [|done]. cbn [bind].
    destruct (Py.int16 _); [|done]. cbn [bind]. by destruct state. }
  rewrite bool_decide_eq_false_2 by done.
  destruct (decide (ty = VStr (tag CContact))) as [E1|E1].
  { rewrite bool_decide_eq_true_2 by done. rewrite contact_branch_verdict.
    by destruct state. }
  rewrite bool_decide_eq_false_2 by done.
  destruct (decide (ty = VStr (tag CTemperature))) as [E2|E2].
  { rewrite bool_decide_eq_true_2 by done. unfold temperature_branch.
    destruct (Py.getitem device "status_temp"); [|done]. cbn [bind].
    by destruct (Py.float _). }
  rewrite bool_decide_eq_false_2 by done.
  destruct (decide (ty = VStr (tag CSmoke))) as [E3|E3].
  { rewrite bool_decide_eq_true_2 by done. unfold smoke_branch.
    by destruct (device_on_in_updates_history _ _ _ _ _). }
  by rewrite bool_decide_eq_false_2 by done.
Qed.

(** *** Which exceptions the normalisation raises *)

Lemma bind_Raise {A B} (m : result A) (f : A → result B) e :
  bind m f = Raise e → m = Raise e ∨ ∃ a, m = Ok a ∧ f a = Raise e.
Proof. destruct m; cbn; [eauto|]. intros [= ->]. by left. Qed.

Lemma bind_Ok {A B} (m : result A) (f : A → result B) b :
  bind m f = Ok b → ∃ a, m = Ok a ∧ f a = Ok b.
Proof. destruct m; cbn; intros; [eauto|done]. Qed.

Lemma getitem_raises (d : dict) k e : Py.getitem d k = Raise e → e = KeyError.
Proof. unfold Py.getitem. destruct (d !! k); congruence. Qed.

Lemma int16_raises s e : Py.int16 s = Raise e → e = ValueError.
Proof. unfold Py.int16. case_match; congruence. Qed.

Lemma float_raises v e : Py.float v = Raise e → builtin_error e.
Proof.
  unfold builtin_error. destruct v; cbn; repeat case_match; naive_solver.
Qed.

Lemma strptime_raises sep v e :
  Py.strptime sep v = Raise e → e = ValueError ∨ e = TypeError.
Proof. destruct v; cbn; repeat case_match; naive_solver. Qed.

Lemma sub_minutes_raises t m e : Py.sub_minutes t m = Raise e → e = OverflowError.
Proof. unfold Py.sub_minutes. case_match; congruence. Qed.

(** Split a hypothesis [bind m f = Raise e] until a primitive is left. *)
Ltac split_raise :=
  repeat match goal with
  | H : bind _ _ = Raise _ |- _ =>
      apply bind_Raise in H as [H | (? & ? & H)]
  | H : (if ?b then _ else _) = Raise _ |- _ => destruct b eqn:?
  | H : Ok _ = Raise _ |- _ => discriminate H
  | H : Raise _ = Raise _ |- _ => injection H as <-
  | H : Py.getitem _ _ = Raise _ |- _ => apply getitem_raises in H as ->
  | H : Py.int16 _ = Raise _ |- _ => apply int16_raises in H as ->
  | H : Py.strptime _ _ = Raise _ |- _ => apply strptime_raises in H as [-> | ->]
  | H : Py.sub_minutes _ _ _ = Raise _ |- _ => apply sub_minutes_raises in H as ->
  | H : Py.sub_minutes _ _ = Raise _ |- _ => apply sub_minutes_raises in H as ->
  | H : Py.float _ = Raise _ |- _ => apply float_raises in H
  end.

Lemma history_loop_raises (device : dict) (accepted : datetime)
    (on off : pyval) (hist : list dict) e :
  history_loop device accepted on off hist = Raise e → builtin_error e.
Proof.
  unfold builtin_error.
  induction hist as [|h rest IH]; [done|]. cbn [history_loop]. intros H.
  split_raise; auto.
Qed.

Lemma verdict_raises (ON OFF : pyval) (updates : updates_t) (device : dict) e :
  verdict ON OFF updates device = Raise e → builtin_error e.
Proof.
  unfold verdict, device_on_in_updates_history. intros H.
  repeat first
    [ progress split_raise
    | case_decide
    | match type of H with
      | match ?s with _ => _ end = _ => destruct s
      end ].
  all: try apply history_loop_raises in H.
  all: unfold builtin_error in *; auto 10.
Qed.

(** *** The frame of a write *)

Lemma write_frame v (d : dict) : frame d (write v d).
Proof.
  intros k H1 H2. destruct v as [[c s [s2|]]|]; cbn; [| |done];
    unfold set_state, set_state2; by rewrite ?lookup_insert_ne by done.
Qed.

Lemma write_state v (d : dict) :
  write (Some v) d !! "_state" = Some (v_state v).
Proof.
  destruct v as [c s [s2|]]; cbn; unfold set_state, set_state2.
  - rewrite lookup_insert_ne by done. apply lookup_insert_eq.
  - apply lookup_insert_eq.
Qed.

Lemma write_state2 v (d : dict) :
  write v d !! "_state2" =
    match v with
    | Some (Verdict _ _ (Some s2)) => Some s2
    | _ => d !! "_state2"
    end.
Proof.
  destruct v as [[c s [s2|]]|]; cbn; unfold set_state, set_state2; [| |done].
  - apply lookup_insert_eq.
  - by rewrite lookup_insert_ne.
Qed.

Lemma write_idemp v (d : dict) : write v (write v d) = write v d.
Proof.
  destruct v as [[c s [s2|]]|]; cbn; unfold set_state, set_state2; [| |done].
  - apply map_eq. intros k.
    destruct (decide (k = "_state2")) as [->|]; [by rewrite !lookup_insert_eq|].
    rewrite !(lookup_insert_ne _ "_state2") by done.
    destruct (decide (k = "_state")) as [->|]; [by rewrite !lookup_insert_eq|].
    by rewrite !lookup_insert_ne by done.
  - apply insert_insert_eq.
Qed.

Lemma getitem_frame (d d' : dict) k :
  frame d d' → k ≠ "_state" → k ≠ "_state2" → Py.getitem d' k = Py.getitem d k.
Proof. intros H H1 H2. unfold Py.getitem. by rewrite (H k H1 H2). Qed.

Lemma history_loop_frame (d d' : dict) accepted on off hist :
  frame d d' →
  history_loop d' accepted on off hist = history_loop d accepted on off hist.
Proof.
  intros Hf. induction hist as [|h rest IH]; [done|]. cbn [history_loop].
  rewrite !(getitem_frame d d') by done. by rewrite !IH.
Qed.

Lemma device_on_frame (u u' : updates_t) (d d' : dict) on off minutes :
  frame d d' → history u' = history u →
  update_timestamp u' = update_timestamp u →
  device_on_in_updates_history d' u' on off minutes =
  device_on_in_updates_history d u on off minutes.
Proof.
  intros Hf Hh Ht. unfold device_on_in_updates_history. rewrite Hh, Ht.
  destruct (Py.sub_minutes _ _); [|done]. cbn [bind].
  by apply history_loop_frame.
Qed.

(** The verdict reads neither [_state] nor [_state2], and of the bundle
    the history and the reference time stamp only. *)
Lemma verdict_frame (ON OFF : pyval) (u u' : updates_t) (d d' : dict) :
  frame d d' → history u' = history u →
  update_timestamp u' = update_timestamp u →
  verdict ON OFF u' d' = verdict ON OFF u d.
Proof.
  intros Hf Hh Ht. unfold verdict.
  rewrite (getitem_frame d d' "status1") by done.
  destruct (Py.getitem d "status1"); [|done]. cbn [bind].
  rewrite (getitem_frame d d' "type") by done.
  destruct (Py.getitem d "type"); [|done]. cbn [bind].
  repeat case_decide; try done.
  - by rewrite (getitem_frame d d' "minigw_lock_status") by done.
  - by rewrite (getitem_frame d d' "status_temp") by done.
  - by rewrite (device_on_frame u u' d d').
Qed.

Lemma category_of_frame (d d' : dict) :
  frame d d' → category_of d' = category_of d.
Proof. intros Hf. unfold category_of. by rewrite (Hf "type"). Qed.

Lemma verdict_category (ON OFF : pyval) (u : updates_t) (d : dict) v :
  verdict ON OFF u d = Ok v → category_of d = v_cat <$> v.
Proof.
  unfold verdict, category_of. intros H.
  apply bind_Ok in H as (state & _ & H).
  apply bind_Ok in H as (ty & Hty & H).
  unfold Py.getitem in Hty. destruct (d !! "type") as [ty'|]; [|done].
  injection Hty as ->.
  repeat case_decide; subst; cbn [tag] in *;
    repeat (apply bind_Ok in H as (? & _ & H)).
  - destruct state; try done. by injection H as <-.
  - destruct state; try done. by injection H as <-.
  - by injection H as <-.
  - by injection H as <-.
  - injection H as <-. destruct ty; try done. cbn [tag] in *.
    repeat case_decide; subst; done.
Qed.

(** *** The loop *)

Lemma cat_list_collect c v (d : dict) (acc : lists) :
  cat_list c (collect v d acc) =
    (cat_list c acc ++ if decide (v_cat <$> v = Some c) then [d] else [])%list.
Proof.
  destruct v as [[c' s s2]|]; cbn; [|by rewrite app_nil_r].
  destruct c, c'; cbn; by rewrite ?app_nil_r.
Qed.

Lemma lists_ext (a b : lists) : (∀ c, cat_list c a = cat_list c b) → a = b.
Proof.
  intros H. destruct a, b.
  pose proof (H CLock). pose proof (H CContact).
  pose proof (H CTemperature). pose proof (H CSmoke). cbn in *. congruence.
Qed.

Lemma processed_frame ON OFF u (d d' : dict) : processed ON OFF u d d' → frame d d'.
Proof. intros (v & _ & ->). apply write_frame. Qed.

Lemma processed_category ON OFF u (d d' : dict) :
  processed ON OFF u d d' → category_of d' = category_of d.
Proof. intros H. eapply category_of_frame, processed_frame, H. Qed.

Lemma device_loop_ok ON OFF u (ds : list dict) (acc : lists) ds' acc' :
  device_loop ON OFF u ds acc = Ok (ds', acc') →
  Forall2 (processed ON OFF u) ds ds' ∧
  ∀ c, cat_list c acc' = (cat_list c acc ++ of_category c ds')%list.
Proof.
  revert acc ds' acc'. induction ds as [|d ds IH]; intros acc ds' acc'.
  - intros [= <- <-]. split; [constructor|]. intros c. by rewrite app_nil_r.
  - cbn [device_loop]. rewrite loop_body_verdict. intros H.
    apply bind_Ok in H as ([d1 acc1] & H1 & H).
    apply bind_Ok in H1 as (v & Hv & [= <- <-]).
    apply bind_Ok in H as ([rest' acc2] & Hrest & [= <- <-]).
    apply IH in Hrest as [Hall Hcat]. split.
    + constructor; [by exists v | done].
    + intros c. rewrite Hcat, cat_list_collect, <-app_assoc. f_equal.
      unfold of_category. rewrite filter_cons.
      rewrite (category_of_frame d (write v d)) by apply write_frame.
      rewrite (verdict_category _ _ _ _ _ Hv). by case_decide.
Qed.

Lemma device_loop_complete ON OFF u (ds ds' : list dict) (acc : lists) :
  Forall2 (processed ON OFF u) ds ds' →
  ∃ acc', device_loop ON OFF u ds acc = Ok (ds', acc').
Proof.
  intros H. revert acc. induction H as [|d d' ds ds' (v & Hv & ->) _ IH];
    intros acc; [by eexists|].
  cbn [device_loop]. rewrite loop_body_verdict, Hv. cbn [bind].
  destruct (IH (collect v (write v d) acc)) as (acc' & ->). by eexists.
Qed.

Lemma device_loop_raises ON OFF u (ds : list dict) (acc : lists) e :
  device_loop ON OFF u ds acc = Raise e → builtin_error e.
Proof.
  revert acc. induction ds as [|d ds IH]; intros acc; [done|].
  cbn [device_loop]. rewrite loop_body_verdict. intros H.
  apply bind_Raise in H as [H|([d1 acc1] & _ & H)].
  - apply bind_Raise in H as [H|(v & _ & H)]; [|done].
    by apply verdict_raises in H.
  - apply bind_Raise in H as [H|([rest' acc2] & _ & H)]; [|done].
    by apply IH in H.
Qed.

(** A record the loop body fails on makes the loop fail. *)
Lemma device_loop_fails ON OFF u (ds : list dict) (acc : lists) (d : dict) e :
  d ∈ ds → verdict ON OFF u d = Raise e →
  ∃ e', device_loop ON OFF u ds acc = Raise e'.
Proof.
  intros Hin Hv. destruct (device_loop ON OFF u ds acc) as [[ds' acc']|e'] eqn:E;
    [|by eexists].
  apply device_loop_ok in E as [Hall _].
  apply list_elem_of_lookup in Hin as [i Hi].
  destruct (Forall2_lookup_l _ _ _ _ _ Hall Hi) as (d' & _ & v & Hv' & _).
  congruence.
Qed.

(** *** The address maps *)

Lemma address_key_getitem (d : dict) a :
  Py.getitem d "address" = Ok a → address_key d = Some (Py.key a).
Proof.
  unfold Py.getitem, address_key. destruct (d !! "address"); [|done].
  by intros [= ->].
Qed.

Lemma getitem_Ok (d : dict) k v : Py.getitem d k = Ok v → d !! k = Some v.
Proof. unfold Py.getitem. destruct (d !! k); congruence. Qed.

Lemma address_map_ok (l : list dict) (m m' : gmap pyval pyval) :
  address_map l m = Ok m' →
  Forall (λ d, is_Some (address_key d) ∧ is_Some (d !! "_state")) l ∧
  dom m' = dom m ∪ list_to_set (omap address_key l) ∧
  (∀ k v, m' !! k = Some v →
     m !! k = Some v ∨
     ∃ d, d ∈ l ∧ address_key d = Some k ∧ d !! "_state" = Some v).
Proof.
  revert m. induction l as [|d l IH]; intros m.
  - intros [= <-]. split; [constructor|]. split; [set_solver|]. by left.
  - cbn [address_map]. intros H.
    apply bind_Ok in H as (a & Ha & H). apply bind_Ok in H as (v & Hv & H).
    pose proof (address_key_getitem _ _ Ha) as Hk.
    apply getitem_Ok in Hv.
    apply IH in H as (Hall & Hdom & Hin). split; [|split].
    + constructor; [|done]. rewrite Hk, Hv. eauto.
    + rewrite Hdom, dom_insert_L. cbn [omap list_omap]. rewrite Hk.
      set_solver.
    + intros k w Hkw. destruct (Hin k w Hkw) as [Hm|(d' & Hd' & ? & ?)].
      * destruct (decide (Py.key a = k)) as [<-|Hne].
        -- rewrite lookup_insert_eq in Hm. injection Hm as <-.
           right. exists d. split; [left|done].
        -- rewrite lookup_insert_ne in Hm by done. by left.
      * right. exists d'. split; [by right|done].
Qed.

Lemma address_map_size (l : list dict) (m m' : gmap pyval pyval) :
  address_map l m = Ok m' →
  NoDup (omap address_key l) →
  (∀ k, k ∈ omap address_key l → m !! k = None) →
  size m' = (size m + length l)%nat.
Proof.
  revert m. induction l as [|d l IH]; intros m.
  - intros [= <-] _ _. cbn. lia.
  - cbn [address_map]. intros H.
    apply bind_Ok in H as (a & Ha & H). apply bind_Ok in H as (v & Hv & H).
    pose proof (address_key_getitem _ _ Ha) as Hk.
    cbn [omap list_omap]. rewrite Hk. intros [Hnotin Hnd]%NoDup_cons Hfresh.
    rewrite (IH _ H Hnd).
    + rewrite map_size_insert_None by (apply Hfresh; left). cbn. lia.
    + intros k Hin. rewrite lookup_insert_ne.
      * apply Hfresh. by right.
      * intros <-. done.
Qed.

Lemma address_map_raises (l : list dict) (m : gmap pyval pyval) e :
  address_map l m = Raise e → e = KeyError.
Proof.
  revert m. induction l as [|d l IH]; intros m; [done|].
  cbn [address_map]. intros H. split_raise; eauto.
Qed.

(** *** The normalisation as a whole *)

Lemma normalize_ok ON OFF (u u' : updates_t) (s : snapshot) :
  normalize ON OFF u = Ok (u', s) →
  ∃ ds ds',
    device_status (cycle u) = Some ds ∧
    u' = Updates (arm_status u) (Cycle (Some ds')) (status u) (online u)
           (panel_info u) (history u) (update_timestamp u) ∧
    Forall2 (processed ON OFF u) ds ds' ∧
    (∀ c, snap_list c s = of_category c ds') ∧
    (∀ c, address_map (snap_list c s) ∅ = Ok (snap_map c s)) ∧
    s_alarm s = arm_status u ∧ s_status s = status u ∧
    s_online s = online u ∧ s_panel_info s = panel_info u.
Proof.
  unfold normalize. intros H.
  apply bind_Ok in H as (ds & Hds & H).
  apply bind_Ok in H as ([ds' acc] & Hloop & H).
  apply bind_Ok in H as (m1 & Hm1 & H). apply bind_Ok in H as (m2 & Hm2 & H).
  apply bind_Ok in H as (m3 & Hm3 & H). apply bind_Ok in H as (m4 & Hm4 & H).
  injection H as <- <-.
  apply device_loop_ok in Hloop as [Hall Hcat].
  exists ds, ds'. split.
  { destruct (device_status (cycle u)); cbn in Hds; congruence. }
  split; [done|]. split; [done|]. split.
  { intros c. specialize (Hcat c). destruct c; cbn in *; by rewrite Hcat. }
  split; [by intros []|done].
Qed.

Lemma normalize_raises ON OFF (u : updates_t) e :
  normalize ON OFF u = Raise e → builtin_error e.
Proof.
  unfold normalize. intros H.
  apply bind_Raise in H as [H|(ds & _ & H)].
  { destruct (device_status (cycle u)); cbn in H; [done|].
    injection H as <-. by left. }
  apply bind_Raise in H as [H|([ds' acc] & _ & H)].
  { by apply device_loop_raises in H. }
  repeat (apply bind_Raise in H as [H|(? & _ & H)];
          [apply address_map_raises in H as ->; by left|]).
  done.
Qed.

(** *** Records and their categories *)

Lemma category_of_None (d : dict) :
  category_of d = None ↔ ∀ c, d !! "type" ≠ Some (VStr (tag c)).
Proof.
  unfold category_of. split.
  - intros H c Hc. rewrite Hc in H. destruct c; cbn in H;
      repeat case_decide; done.
  - intros H. destruct (d !! "type") as [[| | | |t]|]; try done.
    repeat case_decide; subst; try done.
    + by destruct (H CLock).
    + by destruct (H CContact).
    + by destruct (H CTemperature).
    + by destruct (H CSmoke).
Qed.

Lemma category_of_Some (d : dict) c :
  category_of d = Some c ↔ d !! "type" = Some (VStr (tag c)).
Proof.
  unfold category_of. split.
  - destruct (d !! "type") as [[| | | |t]|]; try done.
    repeat case_decide; intros [= <-]; by subst.
  - intros ->. by destruct c.
Qed.

Lemma verdict_state2 ON OFF u (d : dict) v :
  verdict ON OFF u d = Ok (Some v) → v_cat v ≠ CLock → v_state2 v = None.
Proof.
  unfold verdict. intros H Hc.
  apply bind_Ok in H as (state & _ & H). apply bind_Ok in H as (ty & _ & H).
  repeat case_decide; repeat (apply bind_Ok in H as (? & _ & H));
    try (destruct state; try done); by injection H as <-.
Qed.

Lemma processed_state2 ON OFF u (d d' : dict) :
  processed ON OFF u d d' → category_of d ≠ Some CLock →
  d' !! "_state2" = d !! "_state2".
Proof.
  intros (v & Hv & ->) Hc. rewrite write_state2.
  destruct v as [[c s [s2|]]|]; try done.
  rewrite (verdict_category _ _ _ _ _ Hv) in Hc. cbn in Hc.
  apply verdict_state2 in Hv; [done|]. cbn. congruence.
Qed.

Lemma processed_state ON OFF u (d d' : dict) c :
  processed ON OFF u d d' → category_of d = Some c → is_Some (d' !! "_state").
Proof.
  intros (v & Hv & ->) Hc. rewrite (verdict_category _ _ _ _ _ Hv) in Hc.
  destruct v as [v|]; [|done]. rewrite write_state. eauto.
Qed.

Lemma elem_of_of_category c (d : dict) (ds : list dict) :
  d ∈ of_category c ds ↔ category_of d = Some c ∧ d ∈ ds.
Proof. unfold of_category. by rewrite list_elem_of_filter. Qed.

Lemma Forall2_elem_of_r {A B} (R : A → B → Prop) l k y :
  Forall2 R l k → y ∈ k → ∃ x, x ∈ l ∧ R x y.
Proof.
  intros H [i Hi]%list_elem_of_lookup.
  destruct (Forall2_lookup_r _ _ _ _ _ H Hi) as (x & Hx & HR).
  exists x. split; [|done]. apply list_elem_of_lookup. eauto.
Qed.

Lemma Forall2_diag {A B} (R : A → B → Prop) (Q : B → B → Prop) l k :
  Forall2 R l k → (∀ x y, R x y → Q y y) → Forall2 Q k k.
Proof. induction 1; intros HQ; constructor; eauto. Qed.

Lemma omap_of_category ON OFF u c (ds ds' : list dict) :
  Forall2 (processed ON OFF u) ds ds' →
  omap address_key (of_category c ds') = omap address_key (of_category c ds).
Proof.
  unfold of_category. induction 1 as [|d d' ds ds' Hp _ IH]; [done|].
  rewrite !filter_cons, (processed_category _ _ _ _ _ Hp).
  assert (address_key d' = address_key d) as Ha.
  { unfold address_key. by rewrite (processed_frame _ _ _ _ _ Hp "address"). }
  case_decide; cbn [omap list_omap]; by rewrite ?Ha, IH.
Qed.

(** C5. In a snapshot the normalisation produces, for each of the four
    categories: the keys of the address map are the addresses of the
    records of the list; every record of the list has its address in the
    map, where a key occurs once; every key of the map is the address of
    a record of the list; and when the addresses of the category are
    pairwise distinct in the input, they are so in the list and the map
    has exactly one entry for each record. *)
Theorem map_list_consistency (ON OFF : pyval) (u u' : updates_t)
    (s : snapshot) (ds : list dict) (c : category) :
  normalize ON OFF u = Ok (u', s) →
  device_status (cycle u) = Some ds →
  dom (snap_map c s) = list_to_set (omap address_key (snap_list c s)) ∧
  (∀ d, d ∈ snap_list c s →
     ∃ k, address_key d = Some k ∧ is_Some (snap_map c s !! k)) ∧
  NoDup (map_to_list (snap_map c s)).*1 ∧
  (∀ k, is_Some (snap_map c s !! k) →
     ∃ d, d ∈ snap_list c s ∧ address_key d = Some k) ∧
  (NoDup (omap address_key (of_category c ds)) →
     NoDup (omap address_key (snap_list c s)) ∧
     size (snap_map c s) = length (snap_list c s)).
Proof.
  intros H Hds.
  apply normalize_ok in H
    as (ds0 & ds' & Hds0 & _ & Hall & Hlist & Hmap & _).
  assert (ds0 = ds) as -> by congruence.
  pose proof (address_map_ok _ _ _ (Hmap c)) as (Hkeys & Hdom & Hin).
  rewrite dom_empty_L, (left_id_L ∅ (∪)) in Hdom.
  split; [done|]. split; [|split; [|split]].
  - intros d Hd. rewrite Forall_forall in Hkeys.
    destruct (Hkeys d Hd) as [[k Hk] _]. exists k. split; [done|].
    apply elem_of_dom. rewrite Hdom, elem_of_list_to_set, list_elem_of_omap.
    eauto.
  - apply NoDup_fst_map_to_list.
  - intros k [v Hv]. destruct (Hin k v Hv) as [?|(d & ? & ? & _)]; [done|].
    eauto.
  - intros Hnd.
    assert (NoDup (omap address_key (snap_list c s))) as Hnd'.
    { by rewrite Hlist, (omap_of_category _ _ _ _ _ _ Hall). }
    split; [done|].
    rewrite (address_map_size _ _ _ (Hmap c) Hnd') by done.
    by rewrite map_size_empty.
Qed.

(** C6. In a snapshot the normalisation produces, every record of a
    category list carries the type tag of the category and has [_state]
    set, and comes from an input record of that tag; an input record
    whose tag is none of the four is in no list, and every entry of an
    address map comes from a record of the list of its category. *)
Theorem classified_have_state (ON OFF : pyval) (u u' : updates_t)
    (s : snapshot) (ds : list dict) :
  normalize ON OFF u = Ok (u', s) →
  device_status (cycle u) = Some ds →
  (∀ c d', d' ∈ snap_list c s →
     d' !! "type" = Some (VStr (tag c)) ∧ is_Some (d' !! "_state") ∧
     ∃ d, d ∈ ds ∧ d !! "type" = Some (VStr (tag c)) ∧ frame d d') ∧
  (∀ d, d ∈ ds → (∀ c, d !! "type" ≠ Some (VStr (tag c))) →
     ∀ c, d ∉ snap_list c s) ∧
  (∀ c k v, snap_map c s !! k = Some v →
     ∃ d', d' ∈ snap_list c s ∧ address_key d' = Some k ∧
           d' !! "_state" = Some v).
Proof.
  intros H Hds.
  apply normalize_ok in H
    as (ds0 & ds' & Hds0 & _ & Hall & Hlist & Hmap & _).
  assert (ds0 = ds) as -> by congruence.
  assert (∀ c d', d' ∈ snap_list c s →
            d' !! "type" = Some (VStr (tag c)) ∧ is_Some (d' !! "_state") ∧
            ∃ d, d ∈ ds ∧ d !! "type" = Some (VStr (tag c)) ∧ frame d d')
    as Hlists.
  { intros c d'. rewrite Hlist, elem_of_of_category. intros [Hc Hin].
    destruct (Forall2_elem_of_r _ _ _ _ Hall Hin) as (d & Hd & Hp).
    pose proof (processed_category _ _ _ _ _ Hp) as Hcat.
    rewrite Hc in Hcat. symmetry in Hcat.
    split; [by apply category_of_Some|]. split.
    - by eapply processed_state.
    - exists d. split; [done|]. split; [by apply category_of_Some|].
      by eapply processed_frame. }
  split; [done|]. split.
  - intros d _ Hty c Hin. destruct (Hlists c d Hin) as (Hc & _). by destruct (Hty c).
  - intros c k v Hkv.
    destruct (address_map_ok _ _ _ (Hmap c)) as (_ & _ & Hin).
    destruct (Hin k v Hkv) as [?|?]; done.
Qed.

(** C9. The normalisation writes [_state] and [_state2] only: the bundle
    it leaves has, record for record, the input records with every other
    key as it was, and [_state2] as it was when the record is no lock;
    the category lists are made of these records. *)
Theorem only_state_keys_written (ON OFF : pyval) (u u' : updates_t)
    (s : snapshot) (ds : list dict) :
  normalize ON OFF u = Ok (u', s) →
  device_status (cycle u) = Some ds →
  ∃ ds',
    device_status (cycle u') = Some ds' ∧
    Forall2 (λ d d', frame d d' ∧
               (d !! "type" ≠ Some (VStr (tag CLock)) →
                d' !! "_state2" = d !! "_state2")) ds ds' ∧
    (∀ c, snap_list c s = of_category c ds') ∧
    (∀ c d', d' ∈ snap_list c s →
       ∃ d, d ∈ ds ∧ frame d d' ∧
            (c ≠ CLock → d' !! "_state2" = d !! "_state2")).
Proof.
  intros H Hds.
  apply normalize_ok in H
    as (ds0 & ds' & Hds0 & -> & Hall & Hlist & _).
  assert (ds0 = ds) as -> by congruence.
  exists ds'. split; [done|]. split; [|split; [done|]].
  - eapply Forall2_impl; [exact Hall|]. intros d d' Hp. split.
    + by eapply processed_frame.
    + intros Hty. eapply processed_state2; [done|].
      by rewrite category_of_Some.
  - intros c d'. rewrite Hlist, elem_of_of_category. intros [Hc Hin].
    destruct (Forall2_elem_of_r _ _ _ _ Hall Hin) as (d & Hd & Hp).
    exists d. split; [done|]. split; [by eapply processed_frame|].
    intros Hne. eapply processed_state2; [done|].
    rewrite <-(processed_category _ _ _ _ _ Hp), Hc. congruence.
Qed.

(** *** Running the normalisation again *)

Lemma processed_again ON OFF (u u' : updates_t) (d d' : dict) :
  history u' = history u → update_timestamp u' = update_timestamp u →
  processed ON OFF u d d' → processed ON OFF u' d' d'.
Proof.
  intros Hh Ht (v & Hv & ->). exists v. split; [|by rewrite write_idemp].
  rewrite <-Hv. apply verdict_frame; [apply write_frame|done..].
Qed.

(** C7. When the normalisation of a bundle succeeds, a second run on the
    bundle as the first run left it (its records carry the [_state] and
    [_state2] the first run wrote) succeeds with the same snapshot, and
    leaves the bundle, hence the records the first snapshot shares with
    it, as they were. *)
Theorem normalize_idempotent (ON OFF : pyval) (u u' : updates_t) (s : snapshot) :
  normalize ON OFF u = Ok (u', s) → normalize ON OFF u' = Ok (u', s).
Proof.
  intros H.
  apply normalize_ok in H
    as (ds & ds' & Hds & -> & Hall & Hlist & Hmap & Ha & Hs & Ho & Hp).
  set (u' := Updates _ _ _ _ _ _ _).
  assert (Forall2 (processed ON OFF u') ds' ds') as Hall'.
  { eapply Forall2_diag; [exact Hall|]. intros d d'.
    by apply processed_again. }
  destruct (device_loop_complete ON OFF u' ds' ds' (Lists [] [] [] []) Hall')
    as (acc & Hloop).
  pose proof (device_loop_ok _ _ _ _ _ _ _ Hloop) as [_ Hcat].
  assert (acc = Lists (s_locks s) (s_door_windows s)
                  (s_temperature_sensors s) (s_smoke_sensors s)) as ->.
  { apply lists_ext. intros c. rewrite Hcat, <-Hlist. by destruct c. }
  unfold normalize. cbn [cycle device_status u' from_option bind].
  fold u'. rewrite Hloop. cbn [bind locks door_windows sensors_temperature
    sensors_smoke].
  pose proof (Hmap CContact) as H1. pose proof (Hmap CLock) as H2.
  pose proof (Hmap CTemperature) as H3. pose proof (Hmap CSmoke) as H4.
  cbn [snap_list snap_map] in H1, H2, H3, H4.
  rewrite H1, H2, H3, H4. cbn [bind]. destruct s; cbn in *. by subst.
Qed.

(** *** A temperature that does not parse *)

Lemma unparsable_verdict ON OFF (u : updates_t) (d : dict) :
  d !! "type" = Some (VStr (tag CTemperature)) →
  temperature_unparsable d →
  ∃ e, verdict ON OFF u d = Raise e.
Proof.
  intros Hty Hbad. unfold verdict.
  destruct (Py.getitem d "status1"); [|by eexists]. cbn [bind].
  rewrite (getitem_Some _ _ _ Hty). cbn [bind].
  rewrite decide_False by done. rewrite decide_False by done.
  rewrite decide_True by done.
  destruct (d !! "status_temp") as [v|] eqn:Hv.
  - rewrite (getitem_Some _ _ _ Hv). cbn [bind].
    destruct (Py.float v) as [t|e] eqn:Hf; [|by eexists].
    by destruct (Hbad v t Hv).
  - rewrite (getitem_None _ _ Hv). by eexists.
Qed.

Lemma builtin_not_classified e : builtin_error e → ¬ classified e.
Proof. unfold builtin_error, classified. naive_solver. Qed.

(** C4, as the code has it.  When the bundle the fetch returns holds a
    temperature sensor whose temperature field is missing or does not
    parse as a number, the normalisation raises and so does the cycle:
    no snapshot is returned.  The exception is one of the Python run
    time ([KeyError], [ValueError], [TypeError], [OverflowError]), which
    the cycle lets through as it is: it is neither [UpdateFailed] nor
    [ConfigEntryAuthFailed]. *)
Theorem bad_temperature_fails_cycle (ON OFF : pyval) (BASE : exn → bool)
    (connect : pyval → pyval → result YaleSmartAlarmClient)
    (self self' : coordinator) (u : updates_t) (ds : list dict) (d : dict) :
  get_updates BASE connect self = (Ok u, self') →
  device_status (cycle u) = Some ds →
  d ∈ ds →
  d !! "type" = Some (VStr (tag CTemperature)) →
  temperature_unparsable d →
  ∃ e, normalize ON OFF u = Raise e ∧
       _async_update_data ON OFF BASE connect self = (Raise e, self') ∧
       builtin_error e ∧ ¬ classified e.
Proof.
  intros Hget Hds Hin Hty Hbad.
  destruct (unparsable_verdict ON OFF u d Hty Hbad) as (e0 & He0).
  assert (∃ e, normalize ON OFF u = Raise e) as (e & He).
  { unfold normalize. rewrite Hds. cbn [from_option bind].
    destruct (device_loop_fails ON OFF u ds (Lists [] [] [] []) d e0 Hin He0)
      as (e & ->).
    by eexists. }
  exists e. split; [done|]. split.
  - unfold _async_update_data. rewrite Hget. cbn [bind]. by rewrite He.
  - pose proof (normalize_raises _ _ _ _ He). split; [done|].
    by apply builtin_not_classified.
Qed.

(** *** The fetch step *)

Lemma get_updates_raw (BASE : exn → bool)
    (connect : pyval → pyval → result YaleSmartAlarmClient)
    (self : coordinator) :
  (get_updates BASE connect self).1 =
  try_except (raw_fetch connect self) (reclassify BASE).
Proof.
  unfold get_updates, ensure_client, raw_fetch, fetch.
  destruct (yale self) as [client|]; [done|].
  destruct (open_session connect self) as [client|e]; [done|].
  cbn [try_except bind]. unfold reclassify.
  case_decide; [done|]. by destruct (BASE e).
Qed.

(** C3, as the code has it.  The fetch step is its two [try] bodies with
    every exception they raise passed through the two [except] clauses:
    an [AuthenticationError] (from the constructor of the client or from
    its data calls) comes out as [ConfigEntryAuthFailed]; any other
    exception that is an instance of [YALE_BASE_ERRORS] comes out as
    [UpdateFailed]; every other exception raised in the step comes out
    unchanged. *)
Theorem get_updates_reclassifies (BASE : exn → bool)
    (connect : pyval → pyval → result YaleSmartAlarmClient)
    (self : coordinator) :
  (∀ u, raw_fetch connect self = Ok u →
        (get_updates BASE connect self).1 = Ok u) ∧
  (∀ e, raw_fetch connect self = Raise e →
     (e = AuthenticationError →
        (get_updates BASE connect self).1 = Raise ConfigEntryAuthFailed) ∧
     (e ≠ AuthenticationError → BASE e = true →
        (get_updates BASE connect self).1 = Raise UpdateFailed) ∧
     (e ≠ AuthenticationError → BASE e = false →
        (get_updates BASE connect self).1 = Raise e)).
Proof.
  rewrite get_updates_raw. split.
  - by intros u ->.
  - intros e ->. cbn [try_except]. unfold reclassify. split; [|split].
    + intros ->. by rewrite decide_True.
    + intros Hne ->. by rewrite decide_False.
    + intros Hne ->. by rewrite decide_False.
Qed.

(** * The properties on the sample panel *)

Example sample_timestamp_value :
  Py.strptime "-" (VStr sample_token_time) = Ok sample_timestamp.
Proof. reflexivity. Qed.

Example sample_normalize_ok :
  normalize ON_CODE OFF_CODE sample_updates = Ok sample_normalized.
Proof. reflexivity. Qed.

(** ** The run time on a few literals *)

Example int16_11 : Py.int16_of_chars (Py.chars "11") = Some 17. Proof. reflexivity. Qed.
Example int16_0x : Py.int16_of_chars (Py.chars " -0x_fF ") = Some (-255). Proof. reflexivity. Qed.
Example int16_bad : Py.int16_of_chars (Py.chars "1__0") = None. Proof. reflexivity. Qed.
Example int16_bad2 : Py.int16_of_chars (Py.chars "0x") = None. Proof. reflexivity. Qed.
Example float_215 : Py.float_of_chars (Py.chars "21.5") = Some (Py.FDec false 215 (-1)). Proof. reflexivity. Qed.
Example float_e : Py.float_repr <$> Py.float_of_chars (Py.chars " -1_0.50e3 ") = Some "-10500.0". Proof. vm_compute. reflexivity. Qed.
Example float_e2 : Py.float_repr <$> Py.float_of_chars (Py.chars ".5E-7") = Some "5e-08". Proof. vm_compute. reflexivity. Qed.
Example float_e3 : Py.float_repr <$> Py.float_of_chars (Py.chars "123456e20") = Some "1.23456e+25". Proof. vm_compute. reflexivity. Qed.
Example float_e4 : Py.float_repr <$> Py.float_of_chars (Py.chars "0.00012") = Some "0.00012". Proof. vm_compute. reflexivity. Qed.
Example float_bad : Py.float_of_chars (Py.chars "abc") = None. Proof. reflexivity. Qed.
Example float_bad2 : Py.float_of_chars (Py.chars "1e") = None. Proof. reflexivity. Qed.
Example float_bad3 : Py.float_of_chars (Py.chars ".") = None. Proof. reflexivity. Qed.
Example float_inf : Py.float_of_chars (Py.chars "-Infinity") = Some (Py.FInf true). Proof. reflexivity. Qed.

Example strp1 : Py.strptime_chars "/" (Py.chars "0001/01/01 00:00:00") = Some 0. Proof. reflexivity. Qed.
Example strp2 : Py.strptime_chars "/" (Py.chars "9999/12/31 23:59:59") = Some Py.MAX_SECONDS. Proof. reflexivity. Qed.
Example strp3 : Py.strptime_chars "/" (Py.chars "2024/2/ 9  1:2:3") = Some (((Py.days_before_year 2024 + 31 + 8) * 86400) + 3723). Proof. reflexivity. Qed.
Example strp4 : Py.strptime_chars "/" (Py.chars "2023/02/29 00:00:00") = None. Proof. reflexivity. Qed.
Example strp5 : Py.strptime_chars "/" (Py.chars "2024/02/29 00:00:60") = None. Proof. reflexivity. Qed.
Example strp6 : Py.strptime_chars "/" (Py.chars "1970/01/01 00:00:00") = Some (719162 * 86400). Proof. reflexivity. Qed.
Example str1 : Py.str (Py.VInt (-15)) = "-15". Proof. reflexivity. Qed.
Example eq1 : Py.equal (Py.VBool true) (Py.VFloat (Py.FDec false 1 0)) = true. Proof. reflexivity. Qed.

(** ** The cases the specification lists *)

Example smoke_on_in_window :
  smoke_case [event "2024/01/01 11:59:00" "device_type.smoke_detector" "2" "smoke_on"]
  = Ok true.
Proof. reflexivity. Qed.

Example smoke_off_then_older_on :
  smoke_case [event "2024/01/01 11:59:00" "device_type.smoke_detector" "2" "smoke_off";
              event "2024/01/01 11:58:00" "device_type.smoke_detector" "2" "smoke_on"]
  = Ok false.
Proof. reflexivity. Qed.

Example smoke_on_outside_window :
  smoke_case [event "2024/01/01 11:55:00" "device_type.smoke_detector" "2" "smoke_on"]
  = Ok false.
Proof. reflexivity. Qed.

Example smoke_empty_history : smoke_case [] = Ok false.
Proof. reflexivity. Qed.

Example smoke_other_area :
  smoke_case [event "2024/01/01 11:59:00" "device_type.smoke_detector" "3" "smoke_on"]
  = Ok false.
Proof. reflexivity. Qed.

Example end_to_end_lock :
  let device :=
    mk_dict [("type", VStr "device_type.door_lock"); ("area", VStr "1");
             ("address", VStr "RF:01"); ("status1", VStr "device_status.lock");
             ("minigw_lock_status", VStr "00")] in
  match normalize ON_CODE OFF_CODE (with_history [] [device]) with
  | Ok (_, s) =>
      s_lock_map s !! VStr "RF:01" = Some (VStr "locked") ∧
      ((λ d : dict, d !! "_state2") <$> s_locks s) = [Some (VStr "unknown")]
  | Raise _ => False
  end.
Proof. split; reflexivity. Qed.

Example end_to_end_temperature :
  s_temperature_map sample_normalized.2 !! VStr "RF:0a1b2c12"
  = Some (VFloat (Py.FDec false 215 (-1))).
Proof. reflexivity. Qed.

Example sample_smoke_is_on :
  s_smoke_map sample_normalized.2 !! VStr "RF:0a1b2c13" = Some (VStr "on").
Proof. reflexivity. Qed.

Example authentication_error_at_login :
  (_async_update_data ON_CODE OFF_CODE spec_base_errors
     (λ _ _, Raise AuthenticationError) sample_self).1
  = Raise ConfigEntryAuthFailed.
Proof. reflexivity. Qed.

Example client_error_at_login :
  (_async_update_data ON_CODE OFF_CODE spec_base_errors
     (λ _ _, Raise (ClientError "ConnectionError")) sample_self).1
  = Raise UpdateFailed.
Proof. reflexivity. Qed.

(** ** The theorems at the sample panel *)

Lemma lock_decision_table_witness :
  sample_lock !! "type" = Some (VStr "device_type.door_lock") ∧
  sample_lock !! "status1" = Some (VStr "device_status.lock") ∧
  sample_lock !! "minigw_lock_status" = Some (VStr "11") ∧
  Py.int16 (Py.str (Py.or_else (VStr "11") (VInt 0))) = Ok 17 ∧
  ∃ device' acc',
    loop_body ON_CODE OFF_CODE sample_updates sample_lock (Lists [] [] [] [])
      = Ok (device', acc') ∧
    device' !! "_state" = Some (VStr "locked") ∧
    device' !! "_state2" = Some (VStr "closed") ∧
    device' !! "address" = sample_lock !! "address" ∧
    locks acc' = [device'].
Proof.
  destruct (lock_decision_table ON_CODE OFF_CODE sample_updates sample_lock
              (Lists [] [] [] []) "device_status.lock" eq_refl eq_refl)
    as (_ & Htable).
  destruct (Htable (VStr "11") 17 eq_refl eq_refl)
    as (_ & _ & device' & acc' & Hbody & Hs & Hs2 & Hframe & Hlocks & _).
  do 4 (split; [reflexivity|]). exists device', acc'.
  split; [exact Hbody|]. split; [exact Hs|]. split; [exact Hs2|].
  split; [by apply Hframe|exact Hlocks].
Defined.

(** C1, the record without the key.  A lock whose record has no
    [minigw_lock_status] is not read as the bitmask zero (which, with
    the lock marker in [status1], would give locked and unknown): the
    subscript of line 76 raises [KeyError], and the cycle ends with
    it. *)
Lemma lock_without_status_key_raises :
  lock_without_status !! "type" = Some (VStr "device_type.door_lock") ∧
  lock_without_status !! "status1" = Some (VStr "device_status.lock") ∧
  lock_without_status !! "minigw_lock_status" = None ∧
  spec_lock_table 0 "device_status.lock" = ("locked", Some "unknown") ∧
  loop_body ON_CODE OFF_CODE sample_updates lock_without_status
    (Lists [] [] [] []) = Raise KeyError ∧
  normalize ON_CODE OFF_CODE (with_history [] [lock_without_status])
    = Raise KeyError.
Proof. repeat split; reflexivity. Qed.

Lemma contact_state_witness :
  sample_contact !! "type" = Some (VStr "device_type.door_contact") ∧
  sample_contact !! "status1" = Some (VStr "device_status.dc_open") ∧
  ∃ device',
    loop_body ON_CODE OFF_CODE sample_updates sample_contact (Lists [] [] [] [])
      = Ok (device', add_door_window device' (Lists [] [] [] [])) ∧
    device' !! "_state" = Some (VStr "open").
Proof.
  destruct (contact_state ON_CODE OFF_CODE sample_updates sample_contact
              (Lists [] [] [] []) "device_status.dc_open" eq_refl eq_refl)
    as (device' & H & _ & Hopen & _).
  do 2 (split; [reflexivity|]). exists device'. split; [exact H|].
  apply Hopen; reflexivity.
Defined.

Ltac entry_ok :=
  repeat split; eexists; vm_compute; reflexivity.

Ltac times_le :=
  let t := fresh "t" in let t' := fresh "t" in
  let H := fresh "H" in let H' := fresh "H" in
  intros t t' H H'; vm_compute in H, H';
  injection H as <-; injection H' as <-; vm_compute; discriminate.

Lemma smoke_history_scan_witness :
  sample_smoke !! "type" = Some (VStr "device_type.smoke_detector") ∧
  is_Some (sample_smoke !! "area") ∧
  ON_CODE ≠ OFF_CODE ∧
  Py.sub_minutes (update_timestamp sample_updates) 3
    = Ok (sample_timestamp - 180) ∧
  Forall well_formed_entry (history sample_updates) ∧
  newest_first (history sample_updates) ∧
  ∃ active : bool,
    device_on_in_updates_history sample_smoke sample_updates ON_CODE OFF_CODE 3
      = Ok active ∧
    (active = true ↔
     ∃ h, find (decisive sample_smoke (sample_timestamp - 180) ON_CODE OFF_CODE)
            (history sample_updates) = Some h
          ∧ has_code ON_CODE h = true).
Proof.
  assert (is_Some (sample_smoke !! "area")) as Harea by (eexists; reflexivity).
  assert (ON_CODE ≠ OFF_CODE) as Hne by discriminate.
  assert (Forall well_formed_entry (history sample_updates)) as Hwf.
  { repeat (constructor; [entry_ok|]). constructor. }
  assert (newest_first (history sample_updates)) as Hsorted.
  { cbn. repeat split; repeat (constructor; [times_le|]); constructor. }
  destruct (smoke_history_scan sample_smoke sample_updates ON_CODE OFF_CODE 3
              (sample_timestamp - 180) eq_refl Harea Hne eq_refl Hwf)
    as (active & Hscan & Hiff & _).
  do 6 (split; [first [reflexivity | assumption]|]).
  exists active. split; [exact Hscan|]. apply (Hiff Hsorted).
Defined.

Lemma window_bound_inclusive_witness :
  sample_smoke !! "type" = Some (VStr "device_type.smoke_detector") ∧
  is_Some (sample_smoke !! "area") ∧
  Py.sub_minutes (update_timestamp boundary_updates) 3
    = Ok (sample_timestamp - 180) ∧
  history boundary_updates =
    [event "2024/01/01 11:57:00" "device_type.smoke_detector" "2" "smoke_on"] ∧
  well_formed_entry
    (event "2024/01/01 11:57:00" "device_type.smoke_detector" "2" "smoke_on") ∧
  entry_time
    (event "2024/01/01 11:57:00" "device_type.smoke_detector" "2" "smoke_on")
    = Some (sample_timestamp - 180) ∧
  device_on_in_updates_history sample_smoke boundary_updates ON_CODE OFF_CODE 3
    = Ok true.
Proof.
  assert (is_Some (sample_smoke !! "area")) as Harea by (eexists; reflexivity).
  assert (well_formed_entry
    (event "2024/01/01 11:57:00" "device_type.smoke_detector" "2" "smoke_on"))
    as Hwf by entry_ok.
  destruct (window_bound_inclusive sample_smoke boundary_updates ON_CODE
              OFF_CODE 3 (sample_timestamp - 180) []
              (event "2024/01/01 11:57:00" "device_type.smoke_detector" "2"
                 "smoke_on") []
              eq_refl Harea eq_refl eq_refl (Forall_nil_2 _)
              (λ h' Hin, False_ind _ (not_elem_of_nil h' Hin)) Hwf eq_refl)
    as (_ & _ & Hon).
  do 6 (split; [first [reflexivity | assumption]|]).
  apply Hon; reflexivity.
Defined.

Lemma bad_temperature_fails_cycle_witness :
  get_updates spec_base_errors (connect_with bad_devices) sample_self
    = (Ok bad_updates,
       Coordinator (entry_data sample_self) (Some (client_with bad_devices))) ∧
  device_status (cycle bad_updates) = Some bad_devices ∧
  bad_temperature ∈ bad_devices ∧
  bad_temperature !! "type" = Some (VStr (tag CTemperature)) ∧
  temperature_unparsable bad_temperature ∧
  ∃ e, normalize ON_CODE OFF_CODE bad_updates = Raise e ∧
       _async_update_data ON_CODE OFF_CODE spec_base_errors
         (connect_with bad_devices) sample_self
       = (Raise e,
          Coordinator (entry_data sample_self) (Some (client_with bad_devices))) ∧
       builtin_error e ∧ ¬ classified e.
Proof.
  assert (bad_temperature ∈ bad_devices) as Hin.
  { unfold bad_devices. apply list_elem_of_further, list_elem_of_here. }
  assert (temperature_unparsable bad_temperature) as Hbad.
  { intros v t Hv. vm_compute in Hv. injection Hv as <-. discriminate. }
  do 5 (split; [first [reflexivity | assumption]|]).
  exact (bad_temperature_fails_cycle ON_CODE OFF_CODE spec_base_errors
           (connect_with bad_devices) sample_self _ bad_updates bad_devices
           bad_temperature eq_refl eq_refl Hin eq_refl Hbad).
Defined.

Lemma map_list_consistency_witness :
  normalize ON_CODE OFF_CODE sample_updates
    = Ok (sample_normalized.1, sample_normalized.2) ∧
  device_status (cycle sample_updates) = Some sample_devices ∧
  dom (snap_map CLock sample_normalized.2)
    = list_to_set (omap address_key (snap_list CLock sample_normalized.2)) ∧
  size (snap_map CLock sample_normalized.2)
    = length (snap_list CLock sample_normalized.2).
Proof.
  destruct (map_list_consistency ON_CODE OFF_CODE sample_updates
              sample_normalized.1 sample_normalized.2 sample_devices CLock
              eq_refl eq_refl)
    as (Hdom & _ & _ & _ & Hsize).
  do 2 (split; [reflexivity|]). split; [exact Hdom|].
  apply Hsize. vm_compute. apply NoDup_singleton.
Defined.

Lemma classified_have_state_witness :
  normalize ON_CODE OFF_CODE sample_updates
    = Ok (sample_normalized.1, sample_normalized.2) ∧
  device_status (cycle sample_updates) = Some sample_devices ∧
  (∀ c d', d' ∈ snap_list c sample_normalized.2 →
     is_Some (d' !! "_state")) ∧
  (∀ c, sample_keypad ∉ snap_list c sample_normalized.2).
Proof.
  destruct (classified_have_state ON_CODE OFF_CODE sample_updates
              sample_normalized.1 sample_normalized.2 sample_devices
              eq_refl eq_refl)
    as (Hstate & Hdrop & _).
  do 2 (split; [reflexivity|]). split.
  - intros c d' Hin. apply (Hstate c d' Hin).
  - apply Hdrop.
    + unfold sample_devices. apply list_elem_of_further, list_elem_of_here.
    + intros c. destruct c; vm_compute; discriminate.
Defined.

Lemma normalize_idempotent_witness :
  normalize ON_CODE OFF_CODE sample_updates
    = Ok (sample_normalized.1, sample_normalized.2) ∧
  normalize ON_CODE OFF_CODE sample_normalized.1
    = Ok (sample_normalized.1, sample_normalized.2).
Proof.
  split; [reflexivity|].
  exact (normalize_idempotent ON_CODE OFF_CODE sample_updates
           sample_normalized.1 sample_normalized.2 eq_refl).
Defined.

Lemma only_state_keys_written_witness :
  normalize ON_CODE OFF_CODE sample_updates
    = Ok (sample_normalized.1, sample_normalized.2) ∧
  device_status (cycle sample_updates) = Some sample_devices ∧
  ∃ ds',
    device_status (cycle sample_normalized.1) = Some ds' ∧
    Forall2 (λ d d', frame d d' ∧
               (d !! "type" ≠ Some (VStr (tag CLock)) →
                d' !! "_state2" = d !! "_state2")) sample_devices ds'.
Proof.
  destruct (only_state_keys_written ON_CODE OFF_CODE sample_updates
              sample_normalized.1 sample_normalized.2 sample_devices
              eq_refl eq_refl)
    as (ds' & Hds' & Hall & _).
  do 2 (split; [reflexivity|]). exists ds'. split; [exact Hds'|exact Hall].
Defined.

(** C3, a fetch the claim does not cover.  The client logs in and answers
    a dictionary without the key ["CYCLE"]; with [YALE_BASE_ERRORS] the
    errors of the client library, the [KeyError] of [data["CYCLE"]]
    matches neither [except] clause and leaves [get_updates] as it is. *)
Lemma key_error_escapes_fetch :
  (get_updates spec_base_errors connect_without_cycle sample_self).1
    = Raise KeyError ∧
  ¬ classified KeyError.
Proof.
  split; [reflexivity|]. unfold classified. intros [H|H]; discriminate H.
Qed.

(** C4, the failure kind.  A bundle with a temperature sensor that
    reports ["abc"]: the fetch succeeds, [float("abc")] raises
    [ValueError], and the cycle ends with that [ValueError], not with
    [UpdateFailed]. *)
Lemma bad_temperature_not_transient :
  (get_updates spec_base_errors (connect_with bad_devices) sample_self).1
    = Ok bad_updates ∧
  bad_temperature ∈ bad_devices ∧
  bad_temperature !! "type" = Some (VStr "device_type.temperature_sensor") ∧
  bad_temperature !! "status_temp" = Some (VStr "abc") ∧
  Py.float (VStr "abc") = Raise ValueError ∧
  (_async_update_data ON_CODE OFF_CODE spec_base_errors
     (connect_with bad_devices) sample_self).1 = Raise ValueError ∧
  (_async_update_data ON_CODE OFF_CODE spec_base_errors
     (connect_with bad_devices) sample_self).1 ≠ Raise UpdateFailed.
Proof.
  split; [reflexivity|]. split.
  { unfold bad_devices. apply list_elem_of_further, list_elem_of_here. }
  do 4 (split; [reflexivity|]). discriminate.
Qed.
(** * Further properties *)

(** ** The session of [get_updates] *)

(** X1. The session is opened once and kept.  When the coordinator has no
    client and the login succeeds, [get_updates] stores the client and
    fetches with it; the client stays although the fetch may fail, the
    entry data are not touched, and the next call fetches with the stored
    client and never calls the constructor again. *)
Theorem session_opened_once (BASE : exn → bool)
    (connect : pyval → pyval → result YaleSmartAlarmClient)
    (self : coordinator) (client : YaleSmartAlarmClient) :
  yale self = None →
  open_session connect self = Ok client →
  let self1 := (get_updates BASE connect self).2 in
  (get_updates BASE connect self).1 = fetch BASE client ∧
  yale self1 = Some client ∧
  entry_data self1 = entry_data self ∧
  ∀ connect', get_updates BASE connect' self1 = (fetch BASE client, self1).
Proof.
  intros Hy Hopen. cbn zeta.
  assert (get_updates BASE connect self =
          (fetch BASE client, Coordinator (entry_data self) (Some client)))
    as E.
  { unfold get_updates, ensure_client. by rewrite Hy, Hopen. }
  rewrite E. cbn [fst snd yale entry_data]. repeat split; reflexivity.
Qed.

(** X2. A login that fails leaves the coordinator as it was: no client is
    stored, so the next call logs in again; the exception of the login
    goes through the two [except] clauses and no data call is made. *)
Theorem failed_login_keeps_no_session (BASE : exn → bool)
    (connect : pyval → pyval → result YaleSmartAlarmClient)
    (self : coordinator) (e : exn) :
  yale self = None →
  open_session connect self = Raise e →
  get_updates BASE connect self = (reclassify BASE e, self) ∧
  yale (get_updates BASE connect self).2 = None ∧
  ∃ e', (get_updates BASE connect self).1 = Raise e'.
Proof.
  intros Hy Hopen.
  assert (get_updates BASE connect self = (reclassify BASE e, self)) as E.
  { unfold get_updates, ensure_client. rewrite Hy, Hopen.
    cbn [try_except]. unfold reclassify.
    case_decide; [done|]. by destruct (BASE e). }
  rewrite E. split; [done|]. split; [done|]. cbn [fst]. unfold reclassify.
  case_decide; [by eexists|]. destruct (BASE e); by eexists.
Qed.

(** X3. Credentials are read before the constructor is called, the user
    name first: an entry without user name or without password makes the
    first [try] raise [KeyError] whatever the constructor would do, and
    the coordinator is left without a client. *)
Theorem missing_credentials (BASE : exn → bool)
    (connect : pyval → pyval → result YaleSmartAlarmClient)
    (self : coordinator) :
  yale self = None →
  entry_data self !! CONF_USERNAME = None ∨
  entry_data self !! CONF_PASSWORD = None →
  open_session connect self = Raise KeyError ∧
  get_updates BASE connect self = (reclassify BASE KeyError, self).
Proof.
  intros Hy Hmiss.
  assert (open_session connect self = Raise KeyError) as Hopen.
  { unfold open_session, Py.getitem.
    destruct (entry_data self !! CONF_USERNAME) as [user|]; [|done].
    destruct Hmiss as [?|Hp]; [done|]. by rewrite Hp. }
  split; [done|].
  unfold get_updates, ensure_client. rewrite Hy, Hopen.
  cbn [try_except]. unfold reclassify.
  case_decide; [done|]. by destruct (BASE KeyError).
Qed.

(** X4. A fetch that succeeds returns the answers of the client as they
    are: the coordinator holds a client afterwards, the arm status is
    what [get_armed_status] answered, cycle, history, status, online
    flag and panel info are the entries of the dictionary [get_all]
    answered, and the reference time stamp is the [token_time] of its
    ["AUTH CHECK"] entry parsed as [%Y-%m-%d %H:%M:%S]. *)
Theorem fetched_bundle (BASE : exn → bool)
    (connect : pyval → pyval → result YaleSmartAlarmClient)
    (self self' : coordinator) (u : updates_t) :
  get_updates BASE connect self = (Ok u, self') →
  ∃ client data auth_check token_time,
    yale self' = Some client ∧
    get_armed_status client = Ok (arm_status u) ∧
    get_all client = Ok data ∧
    CYCLE data = Some (cycle u) ∧
    HISTORY data = Some (history u) ∧
    STATUS data = Some (status u) ∧
    ONLINE data = Some (online u) ∧
    PANEL_INFO data = Some (panel_info u) ∧
    AUTH_CHECK data = Some auth_check ∧
    auth_check !! "token_time" = Some token_time ∧
    Py.strptime "-" token_time = Ok (update_timestamp u).
Proof.
  unfold get_updates. destruct (ensure_client BASE connect self) as [r self1] eqn:E.
  intros [= H ->]. apply bind_Ok in H as (client & Hr & H). subst r.
  assert (yale self' = Some client) as Hy.
  { unfold ensure_client in E. destruct (yale self) as [c|] eqn:Hc.
    - injection E as <- <-. done.
    - destruct (try_except _ _); [|done]. by injection E as <- <-. }
  unfold fetch in H.
  destruct (fetch_data client) as [u0|e] eqn:Hf; cbn [try_except] in H.
  2:{ unfold reclassify in H. case_decide; [done|]. by destruct (BASE e). }
  injection H as ->. unfold fetch_data, lookup_key in Hf.
  apply bind_Ok in Hf as (a & Ha & Hf). apply bind_Ok in Hf as (data & Hd & Hf).
  destruct (CYCLE data) as [cy|] eqn:?; [|done].
  destruct (HISTORY data) as [hi|] eqn:?; [|done].
  destruct (STATUS data) as [st|] eqn:?; [|done].
  destruct (ONLINE data) as [on|] eqn:?; [|done].
  destruct (PANEL_INFO data) as [pa|] eqn:?; [|done].
  destruct (AUTH_CHECK data) as [au|] eqn:?; [|done].
  cbn [from_option bind] in Hf.
  apply bind_Ok in Hf as (tt & Htt%getitem_Ok & Hf).
  apply bind_Ok in Hf as (ts & Hts & [= <-]).
  exists client, data, au, tt.
  cbn [arm_status cycle history status online panel_info update_timestamp].
  repeat split; done.
Qed.

(** ** The snapshot and the bundle *)

(** X5. The normalisation hands on what it does not look at: the arm
    status, the status, the online flag and the panel info of the
    snapshot are those of the bundle, and the bundle it leaves has the
    same history, reference time stamp and pass-through entries; only
    the device records differ. *)
Theorem normalize_passes_through (ON OFF : pyval) (u u' : updates_t)
    (s : snapshot) :
  normalize ON OFF u = Ok (u', s) →
  s_alarm s = arm_status u ∧ s_status s = status u ∧
  s_online s = online u ∧ s_panel_info s = panel_info u ∧
  arm_status u' = arm_status u ∧ status u' = status u ∧
  online u' = online u ∧ panel_info u' = panel_info u ∧
  history u' = history u ∧ update_timestamp u' = update_timestamp u.
Proof.
  intros H. apply normalize_ok in H
    as (ds & ds' & _ & -> & _ & _ & _ & Ha & Hs & Ho & Hp).
  cbn. repeat split; done.
Qed.

(** X6. Each category list holds the input records of the category, all
    of them, once each and in the order of the input, up to the two
    state keys: record for record the list matches the input records
    carrying the tag of the category. *)
Theorem lists_keep_input_order (ON OFF : pyval) (u u' : updates_t)
    (s : snapshot) (ds : list dict) (c : category) :
  normalize ON OFF u = Ok (u', s) →
  device_status (cycle u) = Some ds →
  Forall2 frame (of_category c ds) (snap_list c s) ∧
  length (snap_list c s) = length (of_category c ds).
Proof.
  intros H Hds. apply normalize_ok in H
    as (ds0 & ds' & Hds0 & _ & Hall & Hlist & _).
  assert (ds0 = ds) as -> by congruence.
  assert (Forall2 frame (of_category c ds) (snap_list c s)) as HF.
  { rewrite Hlist. unfold of_category. clear Hds Hds0 Hlist.
    induction Hall as [|d d' ds ds' Hp _ IH]; [constructor|].
    rewrite !filter_cons, (processed_category _ _ _ _ _ Hp).
    case_decide; [|done]. constructor; [|done].
    by eapply processed_frame. }
  split; [done|]. symmetry. by eapply Forall2_length.
Qed.

(** X7. A record whose type tag is none of the four is not written to:
    the bundle the normalisation leaves holds it unchanged at its
    place. *)
Theorem unrecognized_untouched (ON OFF : pyval) (u u' : updates_t)
    (s : snapshot) (ds : list dict) (i : nat) (d : dict) :
  normalize ON OFF u = Ok (u', s) →
  device_status (cycle u) = Some ds →
  ds !! i = Some d →
  (∀ c, d !! "type" ≠ Some (VStr (tag c))) →
  ∃ ds', device_status (cycle u') = Some ds' ∧ ds' !! i = Some d.
Proof.
  intros H Hds Hi Hty. apply normalize_ok in H
    as (ds0 & ds' & Hds0 & -> & Hall & _).
  assert (ds0 = ds) as -> by congruence.
  exists ds'. split; [done|].
  destruct (Forall2_lookup_l _ _ _ _ _ Hall Hi) as (d' & Hi' & v & Hv & ->).
  apply category_of_None in Hty.
  rewrite (verdict_category _ _ _ _ _ Hv) in Hty.
  destruct v; [done|]. done.
Qed.

Lemma address_map_insert_other (l : list dict) (m m' : gmap pyval pyval) k :
  address_map l m = Ok m' →
  (∀ d, d ∈ l → address_key d ≠ Some k) →
  m' !! k = m !! k.
Proof.
  revert m. induction l as [|d l IH]; intros m; [by intros [= <-]|].
  cbn [address_map]. intros H Hk.
  apply bind_Ok in H as (a & Ha & H). apply bind_Ok in H as (v & _ & H).
  pose proof (address_key_getitem _ _ Ha) as Hka.
  rewrite (IH _ H) by (intros d' Hd'; apply Hk; by right).
  apply lookup_insert_ne. intros E. apply (Hk d); [left|]. by rewrite Hka, E.
Qed.

Lemma address_map_last (l1 l2 : list dict) (d : dict) (m m' : gmap pyval pyval) k :
  address_map (l1 ++ d :: l2) m = Ok m' →
  address_key d = Some k →
  (∀ d', d' ∈ l2 → address_key d' ≠ Some k) →
  m' !! k = d !! "_state".
Proof.
  revert m. induction l1 as [|d1 l1 IH]; intros m; cbn [app address_map].
  - intros H Hk Hl2.
    apply bind_Ok in H as (a & Ha & H). apply bind_Ok in H as (v & Hv & H).
    rewrite (address_map_insert_other _ _ _ k H Hl2).
    rewrite (address_key_getitem _ _ Ha) in Hk. injection Hk as <-.
    rewrite lookup_insert_eq. by apply getitem_Ok in Hv.
  - intros H Hk Hl2.
    apply bind_Ok in H as (a & _ & H). apply bind_Ok in H as (v & _ & H).
    by eapply IH.
Qed.

Lemma address_map_lookup_nodup (l : list dict) (m' : gmap pyval pyval)
    (d : dict) k :
  address_map l ∅ = Ok m' →
  NoDup (omap address_key l) →
  d ∈ l → address_key d = Some k →
  m' !! k = d !! "_state".
Proof.
  intros Hmap Hnd Hin Hk.
  apply list_elem_of_split in Hin as (l1 & l2 & ->).
  apply (address_map_last l1 l2 d ∅ m' k Hmap Hk). intros d' Hd' Hk'.
  rewrite omap_app in Hnd. cbn [omap list_omap] in Hnd.
  rewrite Hk in Hnd. apply NoDup_app in Hnd as (_ & _ & Hnd).
  apply NoDup_cons in Hnd as [Hnotin _]. apply Hnotin.
  apply list_elem_of_omap. eauto.
Qed.

(** X8. Last write wins in the address maps.  In the map of a category
    the entry of an address is the [_state] of the last record of the
    list that carries the address; so when the addresses of the list
    are pairwise distinct, looking up the address of any of its records
    gives the [_state] of that record. *)
Theorem address_map_last_wins (ON OFF : pyval) (u u' : updates_t)
    (s : snapshot) (c : category) :
  normalize ON OFF u = Ok (u', s) →
  (∀ l1 d l2 k,
     snap_list c s = (l1 ++ d :: l2)%list →
     address_key d = Some k →
     (∀ d', d' ∈ l2 → address_key d' ≠ Some k) →
     snap_map c s !! k = d !! "_state") ∧
  (NoDup (omap address_key (snap_list c s)) →
   ∀ d k, d ∈ snap_list c s → address_key d = Some k →
          snap_map c s !! k = d !! "_state").
Proof.
  intros H. apply normalize_ok in H as (ds & ds' & _ & _ & _ & _ & Hmap & _).
  specialize (Hmap c). split.
  - intros l1 d l2 k Hl Hk Hl2. rewrite Hl in Hmap.
    by eapply address_map_last.
  - intros Hnd d k Hin Hk. by eapply address_map_lookup_nodup.
Qed.

(** ** What a snapshot can hold *)

Lemma spec_lock_table_range (n : Z) (flags : string) :
  spec_lock_table n flags = ("unavailable", None) ∨
  ∃ p, p ∈ lock_pairs ∧ spec_lock_table n flags = (p.1, Some p.2).
Proof.
  unfold spec_lock_table, spec_lock_rules, lock_pairs. cbn [first_match].
  destruct (n =? 0);
    destruct (Py.str_contains "device_status.lock" flags);
    destruct (Py.str_contains "device_status.unlock" flags);
    destruct (Z.land n 16 =? 0);
    destruct (Z.land n 1 =? 0); cbn;
    first [ by left | right; eexists (_, _); split; [|reflexivity];
                      set_solver ].
Qed.

Lemma verdict_domain ON OFF (u : updates_t) (d : dict) v :
  verdict ON OFF u d = Ok (Some v) → state_domain (v_cat v) (write (Some v) d).
Proof.
  unfold verdict. intros H.
  apply bind_Ok in H as (state & _ & H). apply bind_Ok in H as (ty & _ & H).
  repeat case_decide; repeat (apply bind_Ok in H as (? & _ & H));
    try (destruct state as [| | | |flags]; try done); injection H as <-;
    cbn [v_cat state_domain]; rewrite ?write_state, ?write_state2;
    cbn [v_state v_state2].
  all: try by eexists.
  all: try (eexists; split; [|done]; case_match; set_solver).
  - destruct (spec_lock_table_range x0 flags) as [E|(p & Hp & E)]; rewrite E.
    + by left.
    + right. by exists p.
  - exists (spec_contact_state flags). split; [|done].
    unfold spec_contact_state. repeat case_match; set_solver.
Qed.

(** X9. What the records of a snapshot hold.  A lock has [_state]
    unavailable, or one of the five pairs locked/unknown,
    unlocked/unknown, locked/closed, unlocked/closed, unlocked/open in
    [_state] and [_state2] (never locked with open); a contact has
    closed, open or unavailable; a temperature sensor has a float; a
    smoke detector has on or off. *)
Theorem snapshot_state_domain (ON OFF : pyval) (u u' : updates_t)
    (s : snapshot) (c : category) (d' : dict) :
  normalize ON OFF u = Ok (u', s) →
  d' ∈ snap_list c s →
  state_domain c d'.
Proof.
  intros H Hin. apply normalize_ok in H
    as (ds & ds' & _ & _ & Hall & Hlist & _).
  rewrite Hlist in Hin. apply elem_of_of_category in Hin as [Hc Hin].
  destruct (Forall2_elem_of_r _ _ _ _ Hall Hin) as (d & _ & v & Hv & ->).
  rewrite (category_of_frame d) in Hc by apply write_frame.
  rewrite (verdict_category _ _ _ _ _ Hv) in Hc.
  destruct v as [v|]; [|done]. injection Hc as <-.
  by eapply verdict_domain.
Qed.

(** ** When the normalisation fails *)

Lemma body_succeeds_verdict ON OFF (u : updates_t) (d : dict) :
  body_succeeds ON OFF u d ↔ ∃ v, verdict ON OFF u d = Ok v.
Proof.
  unfold body_succeeds. rewrite loop_body_verdict. split.
  - intros (r & H). apply bind_Ok in H as (v & Hv & _). eauto.
  - intros (v & ->). by eexists.
Qed.

Lemma loop_body_raises_any_acc ON OFF (u : updates_t) (d : dict) acc acc' e :
  loop_body ON OFF u d acc = Raise e → loop_body ON OFF u d acc' = Raise e.
Proof.
  rewrite !loop_body_verdict. intros H.
  apply bind_Raise in H as [->|(v & _ & H)]; done.
Qed.

Lemma address_map_complete (l : list dict) (m : gmap pyval pyval) :
  Forall (λ d, is_Some (d !! "address") ∧ is_Some (d !! "_state")) l →
  ∃ m', address_map l m = Ok m'.
Proof.
  intros H. revert m. induction H as [|d l [[a Ha] [v Hv]] _ IH]; intros m.
  - by eexists.
  - cbn [address_map].
    rewrite (getitem_Some _ _ _ Ha), (getitem_Some _ _ _ Hv). cbn [bind].
    apply IH.
Qed.

(** X10. The cycle is all or nothing, record by record.  The
    normalisation succeeds exactly when the bundle has a device list,
    the loop body runs to its end on each record taken alone, and every
    record with one of the four type tags has an address. *)
Theorem normalize_succeeds_iff (ON OFF : pyval) (u : updates_t) :
  (∃ r, normalize ON OFF u = Ok r) ↔
  ∃ ds, device_status (cycle u) = Some ds ∧
        Forall (body_succeeds ON OFF u) ds ∧
        Forall (λ d, (∃ c, d !! "type" = Some (VStr (tag c))) →
                     is_Some (d !! "address")) ds.
Proof.
  split.
  - intros ([u' s] & H).
    pose proof (normalize_ok _ _ _ _ _ H)
      as (ds & ds' & Hds & _ & Hall & Hlist & Hmap & _).
    exists ds. split; [done|]. split.
    + apply Forall_forall. intros d [i Hi]%list_elem_of_lookup.
      destruct (Forall2_lookup_l _ _ _ _ _ Hall Hi) as (d' & _ & v & Hv & _).
      apply body_succeeds_verdict. eauto.
    + apply Forall_forall. intros d [i Hi]%list_elem_of_lookup (c & Hc).
      destruct (Forall2_lookup_l _ _ _ _ _ Hall Hi) as (d' & Hi' & Hp).
      apply category_of_Some in Hc.
      assert (d' ∈ snap_list c s) as Hin.
      { rewrite Hlist. apply elem_of_of_category. split.
        - by rewrite (processed_category _ _ _ _ _ Hp).
        - apply list_elem_of_lookup. eauto. }
      destruct (address_map_ok _ _ _ (Hmap c)) as (Hkeys & _).
      rewrite Forall_forall in Hkeys. destruct (Hkeys d' Hin) as [[k Hk] _].
      unfold address_key in Hk.
      rewrite (processed_frame _ _ _ _ _ Hp "address") in Hk by done.
      destruct (d !! "address"); [eauto|done].
  - intros (ds & Hds & Hbody & Haddr).
    assert (∃ ds', Forall2 (processed ON OFF u) ds ds') as (ds' & Hall).
    { clear Hds Haddr. induction Hbody as [|d ds Hd _ (ds' & IH)].
      - exists []. constructor.
      - apply body_succeeds_verdict in Hd as (v & Hv).
        exists (write v d :: ds'). constructor; [by exists v|done]. }
    destruct (device_loop_complete ON OFF u ds ds' (Lists [] [] [] []) Hall)
      as (acc & Hloop).
    pose proof (device_loop_ok _ _ _ _ _ _ _ Hloop) as [_ Hcat].
    assert (∀ c m, ∃ m', address_map (cat_list c acc) m = Ok m') as Hmaps.
    { intros c m. apply address_map_complete. rewrite Hcat.
      replace (cat_list c (Lists [] [] [] [])) with (@nil dict)
        by (by destruct c).
      cbn [app]. apply Forall_forall. intros d' [Hc Hin]%elem_of_of_category.
      destruct (Forall2_elem_of_r _ _ _ _ Hall Hin) as (d & Hd & Hp).
      pose proof (processed_category _ _ _ _ _ Hp) as Hcd. rewrite Hc in Hcd.
      symmetry in Hcd. split.
      - rewrite (processed_frame _ _ _ _ _ Hp "address") by done.
        rewrite Forall_forall in Haddr. apply (Haddr d Hd).
        exists c. by apply category_of_Some.
      - by eapply processed_state. }
    unfold normalize. rewrite Hds. cbn [from_option bind]. rewrite Hloop.
    cbn [bind].
    destruct (Hmaps CContact ∅) as (m1 & H1). cbn [cat_list] in H1.
    destruct (Hmaps CLock ∅) as (m2 & H2). cbn [cat_list] in H2.
    destruct (Hmaps CTemperature ∅) as (m3 & H3). cbn [cat_list] in H3.
    destruct (Hmaps CSmoke ∅) as (m4 & H4). cbn [cat_list] in H4.
    rewrite H1, H2, H3, H4. cbn [bind]. by eexists.
Qed.

(** X11. The first record the loop body fails on decides the exception
    of the cycle: when the loop body runs to its end on the records
    before it, the normalisation raises what the loop body raises on
    that record, whatever comes after it. *)
Theorem first_failure_decides (ON OFF : pyval) (u : updates_t)
    (pre : list dict) (d : dict) (rest : list dict) (e : exn) :
  device_status (cycle u) = Some (pre ++ d :: rest)%list →
  Forall (body_succeeds ON OFF u) pre →
  loop_body ON OFF u d (Lists [] [] [] []) = Raise e →
  normalize ON OFF u = Raise e.
Proof.
  intros Hds Hpre Hd.
  assert (∀ acc, device_loop ON OFF u (pre ++ d :: rest) acc = Raise e) as H.
  { clear Hds.
    induction Hpre as [|d0 pre Hd0 _ IH]; intros acc; cbn [app device_loop].
    - rewrite (loop_body_raises_any_acc ON OFF u d _ acc e Hd). reflexivity.
    - apply body_succeeds_verdict in Hd0 as (v & Hv).
      rewrite loop_body_verdict, Hv. cbn [bind]. by rewrite IH. }
  unfold normalize. rewrite Hds. cbn [from_option bind]. by rewrite H.
Qed.

(** X12. [status1] has to be a string for a contact and for a lock: on a
    contact whose [status1] is anything else the loop body raises
    [TypeError], and so it does on a lock whose status field parses. *)
Theorem status1_must_be_string (ON OFF : pyval) (u : updates_t)
    (d : dict) (acc : lists) (v : pyval) :
  d !! "status1" = Some v →
  (∀ flags, v ≠ VStr flags) →
  (d !! "type" = Some (VStr (tag CContact)) →
   loop_body ON OFF u d acc = Raise TypeError) ∧
  (d !! "type" = Some (VStr (tag CLock)) →
   ∀ lss n, d !! "minigw_lock_status" = Some lss →
            Py.int16 (Py.str (Py.or_else lss (VInt 0))) = Ok n →
            loop_body ON OFF u d acc = Raise TypeError).
Proof.
  intros Hst Hv. split.
  - intros Hty. rewrite loop_body_verdict. unfold verdict.
    rewrite (getitem_Some _ _ _ Hst), (getitem_Some _ _ _ Hty). cbn [bind].
    rewrite decide_False by done. rewrite decide_True by done.
    destruct v; try done. by destruct (Hv s).
  - intros Hty lss n Hl Hn. rewrite loop_body_verdict. unfold verdict.
    rewrite (getitem_Some _ _ _ Hst), (getitem_Some _ _ _ Hty). cbn [bind].
    rewrite decide_True by done.
    rewrite (getitem_Some _ _ _ Hl). cbn [bind]. rewrite Hn. cbn [bind].
    destruct v; try done. by destruct (Hv s).
Qed.

(** ** The history scan on logs that are not well formed *)

(** X13. The scan looks at nothing after the entry it stops at.  When
    the entries before an entry are well formed and do not stop the
    scan, and the entry is well formed and stops it, the result is
    decided there (active when the entry is within the window and no off
    event), whatever follows, malformed entries included. *)
Theorem scan_ignores_the_rest (device : dict) (updates : updates_t)
    (on off : pyval) (minutes : Z) (accepted : datetime)
    (pre : list dict) (h : dict) (rest : list dict) :
  device !! "type" = Some (VStr "device_type.smoke_detector") →
  is_Some (device !! "area") →
  Py.sub_minutes (update_timestamp updates) minutes = Ok accepted →
  history updates = (pre ++ h :: rest)%list →
  Forall well_formed_entry pre →
  (∀ h', h' ∈ pre → stops device accepted on off h' = false) →
  well_formed_entry h →
  stops device accepted on off h = true →
  device_on_in_updates_history device updates on off minutes =
    Ok (in_window accepted h && negb (has_code off h)).
Proof.
  intros Hty Har Hacc Hhist Hpre Hskip Hh Hstop.
  unfold device_on_in_updates_history. rewrite Hacc, Hhist. cbn [bind].
  rewrite (history_loop_skip _ _ _ _ _ _ Hty Har Hpre Hskip).
  rewrite (history_loop_step _ _ _ _ Hty Har _ _ Hh).
  unfold stops, decisive in Hstop.
  destruct (in_window accepted h); cbn [negb andb orb] in *; [|done].
  destruct (same_device device h); cbn [negb andb] in *; [|done].
  destruct (has_code off h); [done|]. rewrite orb_false_r in Hstop.
  by rewrite Hstop.
Qed.

(** X14. An entry the scan reaches and cannot read the time of ends the
    scan with the exception of the read: [KeyError] without the key
    [time], [TypeError] when the time is no string, [ValueError] when it
    does not match [%Y/%m/%d %H:%M:%S]. *)
Theorem unreadable_time_raises (device : dict) (updates : updates_t)
    (on off : pyval) (minutes : Z) (accepted : datetime)
    (pre : list dict) (h : dict) (rest : list dict) (e : exn) :
  device !! "type" = Some (VStr "device_type.smoke_detector") →
  is_Some (device !! "area") →
  Py.sub_minutes (update_timestamp updates) minutes = Ok accepted →
  history updates = (pre ++ h :: rest)%list →
  Forall well_formed_entry pre →
  (∀ h', h' ∈ pre → stops device accepted on off h' = false) →
  read_time h = Raise e →
  device_on_in_updates_history device updates on off minutes = Raise e ∧
  (e = KeyError ∨ e = TypeError ∨ e = ValueError).
Proof.
  intros Hty Har Hacc Hhist Hpre Hskip Hread. split.
  - unfold device_on_in_updates_history. rewrite Hacc, Hhist. cbn [bind].
    rewrite (history_loop_skip _ _ _ _ _ _ Hty Har Hpre Hskip).
    cbn [history_loop]. unfold read_time in Hread.
    destruct (Py.getitem h "time") as [t|e0]; cbn [bind] in *.
    + by rewrite Hread.
    + by injection Hread as ->.
  - unfold read_time in Hread. split_raise; auto.
Qed.

Lemma history_loop_true (device : dict) (accepted : datetime)
    (on off : pyval) (hist : list dict) :
  history_loop device accepted on off hist = Ok true →
  (∃ s, on = VStr s) ∧ on ≠ off.
Proof.
  induction hist as [|h rest IH]; [done|]. cbn [history_loop]. intros H.
  apply bind_Ok in H as (t & _ & H). apply bind_Ok in H as (d & _ & H).
  destruct (d <? accepted); [done|].
  apply bind_Ok in H as (ht & _ & H). apply bind_Ok in H as (dt & _ & H).
  destruct (negb _); [by apply IH|].
  apply bind_Ok in H as (ha & _ & H). apply bind_Ok in H as (da & _ & H).
  destruct (bool_decide _); [by apply IH|].
  apply bind_Ok in H as (ev & _ & H).
  rewrite !equal_str_l in H.
  destruct (bool_decide (off = _)) eqn:Eoff; [done|].
  destruct (bool_decide (on = _)) eqn:Eon; [|by apply IH].
  apply bool_decide_eq_true in Eon. apply bool_decide_eq_false in Eoff.
  split; [eauto|congruence].
Qed.

(** X15. The event codes are compared with [str(event_type)]: the scan
    never answers active when the on code is no string, nor when the on
    code and the off code are the same (the off test comes first). *)
Theorem on_code_must_be_string (device : dict) (updates : updates_t)
    (on off : pyval) (minutes : Z) :
  (∀ s, on ≠ VStr s) ∨ on = off →
  device_on_in_updates_history device updates on off minutes ≠ Ok true.
Proof.
  intros Hbad H. unfold device_on_in_updates_history in H.
  apply bind_Ok in H as (accepted & _ & H).
  apply history_loop_true in H as [[s Hs] Hne].
  destruct Hbad as [Hbad|Hbad]; [by destruct (Hbad s)|done].
Qed.

(** ** The temperature sensor entity *)

Lemma verdict_temperature ON OFF (u : updates_t) (d : dict) v0 :
  verdict ON OFF u d = Ok (Some v0) → v_cat v0 = CTemperature →
  ∃ v t, d !! "status_temp" = Some v ∧ Py.float v = Ok t ∧
         v_state v0 = VFloat t.
Proof.
  unfold verdict. intros H Hc.
  apply bind_Ok in H as (state & _ & H). apply bind_Ok in H as (ty & _ & H).
  repeat case_decide.
  - apply bind_Ok in H as (? & _ & H). apply bind_Ok in H as (? & _ & H).
    destruct state; try done. injection H as <-. done.
  - destruct state; try done. injection H as <-. done.
  - apply bind_Ok in H as (v & Hv%getitem_Ok & H).
    apply bind_Ok in H as (t & Ht & [= <-]). by exists v, t.
  - apply bind_Ok in H as (? & _ & [= <-]). done.
  - done.
Qed.

(** X16. The temperature entity reads back what the normalisation
    parsed.  On a snapshot of the normalisation whose temperature
    sensors have pairwise distinct addresses, the state of the entity
    whose unique id is the address of a listed record is
    [float(status_temp)] of that record: the lookup finds the address
    and the second [float] changes nothing. *)
Theorem sensor_reports_temperature (ON OFF : pyval) (u u' : updates_t)
    (s : snapshot) (d' : dict) (a : pyval) :
  normalize ON OFF u = Ok (u', s) →
  NoDup (omap address_key (s_temperature_sensors s)) →
  d' ∈ s_temperature_sensors s →
  d' !! "address" = Some a →
  ∃ v t, d' !! "status_temp" = Some v ∧ Py.float v = Ok t ∧
         sensor_state s a = Ok t.
Proof.
  intros H Hnd Hin Ha. apply normalize_ok in H
    as (ds & ds' & _ & _ & Hall & Hlist & Hmap & _).
  specialize (Hmap CTemperature). pose proof (Hlist CTemperature) as Hl.
  cbn [snap_list snap_map] in Hmap, Hl.
  assert (s_temperature_map s !! Py.key a = d' !! "_state") as Hlook.
  { eapply address_map_lookup_nodup; [done..|].
    unfold address_key. by rewrite Ha. }
  rewrite Hl in Hin. apply elem_of_of_category in Hin as [Hc Hin].
  destruct (Forall2_elem_of_r _ _ _ _ Hall Hin) as (d & _ & v0 & Hv0 & ->).
  rewrite (category_of_frame d) in Hc by apply write_frame.
  rewrite (verdict_category _ _ _ _ _ Hv0) in Hc.
  destruct v0 as [v0|]; [|done]. injection Hc as Hc.
  destruct (verdict_temperature _ _ _ _ _ Hv0 Hc) as (v & t & Hv & Ht & Hst).
  exists v, t. split; [|split; [done|]].
  - by rewrite (write_frame (Some v0) d "status_temp").
  - unfold sensor_state, map_getitem.
    rewrite Hlook, write_state, Hst. reflexivity.
Qed.

(** X17. The state of a temperature entity whose unique id is the
    address of no temperature sensor of the snapshot raises
    [KeyError]. *)
Theorem sensor_unknown_id (ON OFF : pyval) (u u' : updates_t)
    (s : snapshot) (id : pyval) :
  normalize ON OFF u = Ok (u', s) →
  (∀ d', d' ∈ s_temperature_sensors s → address_key d' ≠ Some (Py.key id)) →
  sensor_state s id = Raise KeyError.
Proof.
  intros H Hid. apply normalize_ok in H
    as (ds & ds' & _ & _ & _ & _ & Hmap & _).
  specialize (Hmap CTemperature). cbn [snap_list snap_map] in Hmap.
  unfold sensor_state, map_getitem.
  rewrite (address_map_insert_other _ _ _ (Py.key id) Hmap Hid).
  by rewrite lookup_empty.
Qed.

(** ** The further properties at the sample panel *)

Lemma session_opened_once_witness :
  yale sample_self = None ∧
  open_session (connect_with sample_devices) sample_self
    = Ok (client_with sample_devices) ∧
  yale (get_updates spec_base_errors (connect_with sample_devices)
          sample_self).2 = Some (client_with sample_devices) ∧
  get_updates spec_base_errors connect_refused
    (get_updates spec_base_errors (connect_with sample_devices) sample_self).2
  = (fetch spec_base_errors (client_with sample_devices),
     (get_updates spec_base_errors (connect_with sample_devices)
        sample_self).2).
Proof.
  destruct (session_opened_once spec_base_errors (connect_with sample_devices)
              sample_self (client_with sample_devices) eq_refl eq_refl)
    as (_ & Hy & _ & Hnext).
  do 2 (split; [reflexivity|]). split; [exact Hy|]. apply Hnext.
Defined.

Lemma failed_login_keeps_no_session_witness :
  yale sample_self = None ∧
  open_session connect_refused sample_self = Raise AuthenticationError ∧
  get_updates spec_base_errors connect_refused sample_self
    = (Raise ConfigEntryAuthFailed, sample_self).
Proof.
  destruct (failed_login_keeps_no_session spec_base_errors connect_refused
              sample_self AuthenticationError eq_refl eq_refl) as (H & _).
  do 2 (split; [reflexivity|]). exact H.
Defined.

Lemma missing_credentials_witness :
  yale self_without_password = None ∧
  entry_data self_without_password !! CONF_PASSWORD = None ∧
  get_updates spec_base_errors (connect_with sample_devices)
    self_without_password
  = (Raise KeyError, self_without_password).
Proof.
  destruct (missing_credentials spec_base_errors (connect_with sample_devices)
              self_without_password eq_refl (or_intror eq_refl)) as (_ & H).
  do 2 (split; [reflexivity|]). exact H.
Defined.

Lemma fetched_bundle_witness :
  get_updates spec_base_errors (connect_with sample_devices) sample_self
    = (Ok sample_updates,
       Coordinator (entry_data sample_self)
         (Some (client_with sample_devices))) ∧
  ∃ client data auth_check token_time,
    get_all client = Ok data ∧
    HISTORY data = Some (history sample_updates) ∧
    AUTH_CHECK data = Some auth_check ∧
    auth_check !! "token_time" = Some token_time ∧
    Py.strptime "-" token_time = Ok (update_timestamp sample_updates).
Proof.
  destruct (fetched_bundle spec_base_errors (connect_with sample_devices)
              sample_self _ sample_updates eq_refl)
    as (client & data & auth & tt & _ & _ & Hall & _ & Hh & _ & _ & _ & Ha
        & Htt & Hts).
  split; [reflexivity|]. exists client, data, auth, tt. repeat split; assumption.
Defined.

Lemma normalize_passes_through_witness :
  normalize ON_CODE OFF_CODE sample_updates
    = Ok (sample_normalized.1, sample_normalized.2) ∧
  s_alarm sample_normalized.2 = arm_status sample_updates ∧
  history sample_normalized.1 = history sample_updates.
Proof.
  destruct (normalize_passes_through ON_CODE OFF_CODE sample_updates
              sample_normalized.1 sample_normalized.2 eq_refl)
    as (Ha & _ & _ & _ & _ & _ & _ & _ & Hh & _).
  split; [reflexivity|]. split; [exact Ha|exact Hh].
Defined.

Lemma lists_keep_input_order_witness :
  normalize ON_CODE OFF_CODE sample_updates
    = Ok (sample_normalized.1, sample_normalized.2) ∧
  device_status (cycle sample_updates) = Some sample_devices ∧
  Forall2 frame (of_category CContact sample_devices)
    (snap_list CContact sample_normalized.2).
Proof.
  destruct (lists_keep_input_order ON_CODE OFF_CODE sample_updates
              sample_normalized.1 sample_normalized.2 sample_devices CContact
              eq_refl eq_refl) as (H & _).
  do 2 (split; [reflexivity|]). exact H.
Defined.

Lemma unrecognized_untouched_witness :
  normalize ON_CODE OFF_CODE sample_updates
    = Ok (sample_normalized.1, sample_normalized.2) ∧
  device_status (cycle sample_updates) = Some sample_devices ∧
  sample_devices !! 1%nat = Some sample_keypad ∧
  (∀ c, sample_keypad !! "type" ≠ Some (VStr (tag c))) ∧
  ∃ ds', device_status (cycle sample_normalized.1) = Some ds' ∧
         ds' !! 1%nat = Some sample_keypad.
Proof.
  assert (∀ c, sample_keypad !! "type" ≠ Some (VStr (tag c))) as Hty.
  { intros c. destruct c; vm_compute; discriminate. }
  do 3 (split; [reflexivity|]). split; [exact Hty|].
  exact (unrecognized_untouched ON_CODE OFF_CODE sample_updates
           sample_normalized.1 sample_normalized.2 sample_devices 1
           sample_keypad eq_refl eq_refl eq_refl Hty).
Defined.

Lemma address_map_last_wins_witness :
  normalize ON_CODE OFF_CODE duplicate_updates
    = Ok (duplicate_normalized.1, duplicate_normalized.2) ∧
  snap_list CContact duplicate_normalized.2 =
    [set_state (VStr "open") (contact_at "RF:0a1b2c20" "device_status.dc_open");
     set_state (VStr "closed")
       (contact_at "RF:0a1b2c20" "device_status.dc_close")] ∧
  snap_map CContact duplicate_normalized.2 !! VStr "RF:0a1b2c20"
    = Some (VStr "closed").
Proof.
  destruct (address_map_last_wins ON_CODE OFF_CODE duplicate_updates
              duplicate_normalized.1 duplicate_normalized.2 CContact eq_refl)
    as (Hlast & _).
  do 2 (split; [reflexivity|]).
  rewrite (Hlast
    [set_state (VStr "open") (contact_at "RF:0a1b2c20" "device_status.dc_open")]
    (set_state (VStr "closed")
       (contact_at "RF:0a1b2c20" "device_status.dc_close"))
    [] (VStr "RF:0a1b2c20") eq_refl eq_refl
    (λ d' Hin, False_ind _ (not_elem_of_nil d' Hin))).
  reflexivity.
Defined.

Lemma snapshot_state_domain_witness :
  normalize ON_CODE OFF_CODE sample_updates
    = Ok (sample_normalized.1, sample_normalized.2) ∧
  write_outcome ("locked", Some "closed") sample_lock
    ∈ snap_list CLock sample_normalized.2 ∧
  state_domain CLock (write_outcome ("locked", Some "closed") sample_lock).
Proof.
  assert (write_outcome ("locked", Some "closed") sample_lock
            ∈ snap_list CLock sample_normalized.2) as Hin.
  { change (snap_list CLock sample_normalized.2)
      with [write_outcome ("locked", Some "closed") sample_lock].
    apply list_elem_of_here. }
  split; [reflexivity|]. split; [exact Hin|].
  exact (snapshot_state_domain ON_CODE OFF_CODE sample_updates
           sample_normalized.1 sample_normalized.2 CLock _ eq_refl Hin).
Defined.

Lemma first_failure_decides_witness :
  device_status (cycle bad_updates)
    = Some ([sample_lock] ++ bad_temperature :: [])%list ∧
  Forall (body_succeeds ON_CODE OFF_CODE bad_updates) [sample_lock] ∧
  loop_body ON_CODE OFF_CODE bad_updates bad_temperature (Lists [] [] [] [])
    = Raise ValueError ∧
  normalize ON_CODE OFF_CODE bad_updates = Raise ValueError.
Proof.
  assert (Forall (body_succeeds ON_CODE OFF_CODE bad_updates) [sample_lock])
    as Hpre.
  { constructor; [|constructor]. eexists. reflexivity. }
  split; [reflexivity|]. split; [exact Hpre|]. split; [reflexivity|].
  exact (first_failure_decides ON_CODE OFF_CODE bad_updates [sample_lock]
           bad_temperature [] ValueError eq_refl Hpre eq_refl).
Defined.

Lemma status1_must_be_string_witness :
  null_status_contact !! "status1" = Some VNone ∧
  (∀ flags, VNone ≠ VStr flags) ∧
  null_status_contact !! "type" = Some (VStr (tag CContact)) ∧
  loop_body ON_CODE OFF_CODE sample_updates null_status_contact
    (Lists [] [] [] []) = Raise TypeError.
Proof.
  assert (∀ flags, VNone ≠ VStr flags) as Hv by (intros flags; discriminate).
  destruct (status1_must_be_string ON_CODE OFF_CODE sample_updates
              null_status_contact (Lists [] [] [] []) VNone eq_refl Hv)
    as (Hcontact & _).
  split; [reflexivity|]. split; [exact Hv|]. split; [reflexivity|].
  apply Hcontact. reflexivity.
Defined.

Lemma scan_ignores_the_rest_witness :
  history ragged_updates =
    ([event "2024/01/01 11:59:30" "device_type.door_contact" "1" "dc_open"] ++
     event "2024/01/01 11:59:00" "device_type.smoke_detector" "2" "smoke_on"
     :: [entry_without_time; entry_with_bad_time])%list ∧
  read_time entry_without_time = Raise KeyError ∧
  device_on_in_updates_history sample_smoke ragged_updates ON_CODE OFF_CODE 3
    = Ok true.
Proof.
  assert (is_Some (sample_smoke !! "area")) as Harea by (eexists; reflexivity).
  assert (Forall well_formed_entry
    [event "2024/01/01 11:59:30" "device_type.door_contact" "1" "dc_open"])
    as Hpre.
  { constructor; [|constructor]. repeat split; eexists; vm_compute; reflexivity. }
  assert (∀ h', h' ∈
    [event "2024/01/01 11:59:30" "device_type.door_contact" "1" "dc_open"] →
    stops sample_smoke (sample_timestamp - 180) ON_CODE OFF_CODE h' = false)
    as Hskip.
  { intros h' ->%list_elem_of_singleton. reflexivity. }
  assert (well_formed_entry
    (event "2024/01/01 11:59:00" "device_type.smoke_detector" "2" "smoke_on"))
    as Hh.
  { repeat split; eexists; vm_compute; reflexivity. }
  do 2 (split; [reflexivity|]).
  exact (scan_ignores_the_rest sample_smoke ragged_updates ON_CODE OFF_CODE 3
           (sample_timestamp - 180)
           [event "2024/01/01 11:59:30" "device_type.door_contact" "1" "dc_open"]
           (event "2024/01/01 11:59:00" "device_type.smoke_detector" "2"
              "smoke_on")
           [entry_without_time; entry_with_bad_time]
           eq_refl Harea eq_refl eq_refl Hpre Hskip Hh eq_refl).
Defined.

Lemma unreadable_time_raises_witness :
  history bad_time_updates = ([] ++ entry_with_bad_time :: [])%list ∧
  read_time entry_with_bad_time = Raise ValueError ∧
  device_on_in_updates_history sample_smoke bad_time_updates ON_CODE OFF_CODE 3
    = Raise ValueError.
Proof.
  assert (is_Some (sample_smoke !! "area")) as Harea by (eexists; reflexivity).
  destruct (unreadable_time_raises sample_smoke bad_time_updates ON_CODE
              OFF_CODE 3 (sample_timestamp - 180) [] entry_with_bad_time []
              ValueError eq_refl Harea eq_refl eq_refl (Forall_nil_2 _)
              (λ h' Hin, False_ind _ (not_elem_of_nil h' Hin)) eq_refl)
    as (H & _).
  do 2 (split; [reflexivity|]). exact H.
Defined.

Lemma on_code_must_be_string_witness :
  (∀ s, VInt 2816 ≠ VStr s) ∧
  device_on_in_updates_history sample_smoke sample_updates (VInt 2816)
    OFF_CODE 3 ≠ Ok true.
Proof.
  assert (∀ s, VInt 2816 ≠ VStr s) as Hon by (intros s; discriminate).
  split; [exact Hon|].
  exact (on_code_must_be_string sample_smoke sample_updates (VInt 2816)
           OFF_CODE 3 (or_introl Hon)).
Defined.

Lemma sensor_reports_temperature_witness :
  normalize ON_CODE OFF_CODE sample_updates
    = Ok (sample_normalized.1, sample_normalized.2) ∧
  s_temperature_sensors sample_normalized.2 =
    [set_state (VFloat (Py.FDec false 215 (-1))) sample_temperature] ∧
  sensor_state sample_normalized.2 (VStr "RF:0a1b2c12")
    = Ok (Py.FDec false 215 (-1)).
Proof.
  assert (s_temperature_sensors sample_normalized.2 =
            [set_state (VFloat (Py.FDec false 215 (-1))) sample_temperature])
    as El by reflexivity.
  assert (NoDup (omap address_key (s_temperature_sensors sample_normalized.2)))
    as Hnd.
  { rewrite El. vm_compute. apply NoDup_singleton. }
  assert (set_state (VFloat (Py.FDec false 215 (-1))) sample_temperature
            ∈ s_temperature_sensors sample_normalized.2) as Hin.
  { rewrite El. apply list_elem_of_here. }
  destruct (sensor_reports_temperature ON_CODE OFF_CODE sample_updates
              sample_normalized.1 sample_normalized.2 _ (VStr "RF:0a1b2c12")
              eq_refl Hnd Hin eq_refl)
    as (v & t & Hv & Ht & Hs).
  split; [reflexivity|]. split; [exact El|].
  rewrite Hs. f_equal.
  assert (v = VStr "21.5") as -> by (vm_compute in Hv; congruence).
  vm_compute in Ht. congruence.
Defined.

Lemma sensor_unknown_id_witness :
  normalize ON_CODE OFF_CODE sample_updates
    = Ok (sample_normalized.1, sample_normalized.2) ∧
  sensor_state sample_normalized.2 (VStr "RF:0a1b2c10") = Raise KeyError.
Proof.
  assert (∀ d', d' ∈ s_temperature_sensors sample_normalized.2 →
            address_key d' ≠ Some (Py.key (VStr "RF:0a1b2c10"))) as Hid.
  { change (s_temperature_sensors sample_normalized.2)
      with [set_state (VFloat (Py.FDec false 215 (-1))) sample_temperature].
    intros d' ->%list_elem_of_singleton. vm_compute. discriminate. }
  split; [reflexivity|].
  exact (sensor_unknown_id ON_CODE OFF_CODE sample_updates
           sample_normalized.1 sample_normalized.2 (VStr "RF:0a1b2c10")
           eq_refl Hid).
Defined.
